(** * Stock-Scraper-Analyser: the per-symbol normalizer and the batch driver

    A shallow embedding of [src/main.py] ([get_stock_info] and [main]) and
    the properties its specification states about them.

    Conventions of the embedding.
    - Python values that flow through the normalizer are [pyval]s; a local
      variable that may hold [None] is a [pyval].
    - Dividend amounts, prices and yields are IEEE doubles in the source;
      they are embedded as exact rationals ([Q]).  The concrete amounts and
      prices used below are exactly representable as doubles, and the texts
      shown for them are the ones double arithmetic gives.
    - A point in time is an integer count of nanoseconds.  A timestamp keeps
      its wall-clock fields (as [datetime] and [pd.Timestamp] expose them)
      and, when it is zone-aware, its UTC offset.
    - What the market-data client returns, what the clock reads, and the
      rules of the America/New_York zone are inputs of the embedding.
    - A [try]/[except] block is a function on [result]; the text printed by
      a handler is returned next to the value. *)

From Stdlib Require Import ZArith QArith Qround Qabs Ascii String Sorted Lia.
From stdpp Require Import base option list strings gmap pretty.

Local Open Scope string_scope.
Local Open Scope Z_scope.

(** ** Exceptions and results *)

(** An exception, with the text [str(e)] gives. *)
Record exn := Exception { exn_str : string }.

Inductive result (A : Type) : Type :=
| Return (a : A)
| Raise (e : exn).
Arguments Return {A} a.
Arguments Raise {A} e.

Definition returned {A} (r : result A) : option A :=
  match r with Return a => Some a | Raise _ => None end.

(** ** Timestamps *)

Definition ns_per_day : Z := 86400 * 1000000000.

(** [timedelta(days=180)] *)
Definition max_future_delta : Z := 180 * ns_per_day.

(** The wall-clock reading of a [datetime] or [pd.Timestamp]: calendar
    fields and nanoseconds since midnight. *)
Record WallTime := mkWallTime {
  wt_year : Z;
  wt_month : Z;
  wt_day : Z;
  wt_tod : Z
}.

(** A [pd.Timestamp]: its wall-clock reading and, when it is zone-aware,
    its UTC offset in nanoseconds ([None] for a naive one). *)
Record Timestamp := mkTimestamp {
  ts_wall : WallTime;
  ts_utcoffset : option Z
}.

Definition is_leap (y : Z) : bool :=
  ((y mod 4 =? 0) && negb (y mod 100 =? 0)) || (y mod 400 =? 0).

Definition days_in_month (y m : Z) : Z :=
  if m =? 2 then (if is_leap y then 29 else 28)
  else if (m =? 4) || (m =? 6) || (m =? 9) || (m =? 11) then 30
  else 31.

(** Days from 1970-01-01 to the given civil date (proleptic Gregorian). *)
Definition days_from_civil (y m d : Z) : Z :=
  let y' := if m <=? 2 then y - 1 else y in
  let era := y' / 400 in
  let yoe := y' - era * 400 in
  let doy := (153 * (if 2 <? m then m - 3 else m + 9) + 2) / 5 + d - 1 in
  let doe := yoe * 365 + yoe / 4 - yoe / 100 + doy in
  era * 146097 + doe - 719468.

(** Nanoseconds from the epoch to the wall-clock reading of [t]. *)
Definition wall_ns (w : WallTime) : Z :=
  days_from_civil (wt_year w) (wt_month w) (wt_day w) * ns_per_day + wt_tod w.

(** The point in time of a wall-clock reading at a given UTC offset. *)
Definition instant (w : WallTime) (utcoffset : Z) : Z := wall_ns w - utcoffset.

(** The range of [pd.Timestamp] (a signed 64-bit count of nanoseconds),
    rounded inwards to whole years, with well-formed calendar fields. *)
Definition valid_wall (w : WallTime) : Prop :=
  1678 <= wt_year w <= 2261 /\
  1 <= wt_month w <= 12 /\
  1 <= wt_day w <= days_in_month (wt_year w) (wt_month w) /\
  0 <= wt_tod w < ns_per_day.

(** ** Decimal text *)

Definition digit_char (d : Z) : ascii := ascii_of_nat (48 + Z.to_nat d).

Definition digit_val (c : ascii) : option Z :=
  let n := Z.of_nat (nat_of_ascii c) in
  if (48 <=? n) && (n <=? 57) then Some (n - 48) else None.

Definition pad2 (n : Z) : string :=
  String (digit_char (n / 10)) (String (digit_char (n mod 10)) "").

Definition pad4 (n : Z) : string :=
  String (digit_char (n / 1000)) (String (digit_char (n / 100 mod 10)) (pad2 (n mod 100))).

(** [t.strftime('%Y-%m-%d')] *)
Definition strftime_ymd (w : WallTime) : string :=
  pad4 (wt_year w) +:+ "-" +:+ pad2 (wt_month w) +:+ "-" +:+ pad2 (wt_day w).

Definition num2 (a b : ascii) : option Z :=
  x ← digit_val a; y ← digit_val b; Some (10 * x + y).

(** [datetime.strptime(s, '%Y-%m-%d')]: a naive midnight, or [None] where
    [strptime] raises [ValueError].  Only text written by [strftime_ymd]
    reaches it, so the embedding reads the zero-padded ten-character form
    and leaves out the unpadded months and days Python also accepts. *)
Definition strptime_ymd (s : string) : option WallTime :=
  match s with
  | String y1 (String y2 (String y3 (String y4 (String "-"
      (String m1 (String m2 (String "-" (String d1 (String d2 ""))))))))) =>
      yh ← num2 y1 y2; yl ← num2 y3 y4; m ← num2 m1 m2; d ← num2 d1 d2;
      let y := 100 * yh + yl in
      if (1 <=? y) && (1 <=? m) && (m <=? 12) && (1 <=? d) && (d <=? days_in_month y m)
      then Some (mkWallTime y m d 0)
      else None
  | _ => None
  end.

(** Round to the nearest integer, ties to even. *)
Definition round_half_even (q : Q) : Z :=
  let f := Qfloor q in
  match ((q - inject_Z f) ?= (1 # 2))%Q with
  | Lt => f
  | Gt => f + 1
  | Eq => if Z.even f then f else f + 1
  end.

(** [f"{x:.2f}"] *)
Definition format_2f (x : Q) : string :=
  let n := round_half_even (Qabs x * 100) in
  (if Qlt_le_dec x 0 then "-" else "") +:+ pretty (n / 100) +:+ "." +:+ pad2 (n mod 100).

(** ** Python values *)

Inductive pyval :=
| PyNone
| PyNum (q : Q)
| PyStr (s : string)
| PyTimestamp (t : Timestamp).

(** Truth value of a value in a condition. *)
Definition truthy (v : pyval) : bool :=
  match v with
  | PyNone => false
  | PyNum q => negb (Qeq_bool q 0)
  | PyStr s => negb (String.eqb s "")
  | PyTimestamp _ => true
  end.

(** [d.get(key, default)] *)
Definition dict_get (d : gmap string pyval) (key : string) (default : pyval) : pyval :=
  match d !! key with
  | Some v => v
  | None => default
  end.

(** ** What the market-data client exposes *)

(** [ticker.calendar]: a data frame with labelled rows, or something that is
    not a data frame (a dict, [None]). *)
Inductive Calendar :=
| CalendarFrame (rows : gmap string (list pyval))
| CalendarOther.

(** A [DatetimeIndex]: naive, or zone-aware with each entry's UTC offset. *)
Inductive DatetimeIndex :=
| NaiveIndex (stamps : list WallTime)
| AwareIndex (stamps : list (WallTime * Z)).

(** [ticker.earnings_dates]: a data frame indexed by time (only the number
    of its columns matters here), or something that is not a data frame. *)
Inductive EarningsDates :=
| EarningsFrame (ncols : nat) (index : DatetimeIndex)
| EarningsOther.

(** A ticker handle: each property either yields a value or raises when it
    is read.  [dividends] is the series of (time, amount) pairs in the order
    the client delivers it. *)
Record Ticker := mkTicker {
  info : result (gmap string pyval);
  calendar : result Calendar;
  earnings_dates : result EarningsDates;
  dividends : result (list (Timestamp * Q))
}.

(** The world as one call of [get_stock_info] meets it: the outcome of
    [yf.Ticker(symbol)] and the two readings of [datetime.now(ny_tz)]. *)
Record Env := mkEnv {
  yf_Ticker : result Ticker;
  now_resolve : Z;
  now_validate : Z
}.

(** The returned dict: keys in insertion order. *)
Definition record : Type := list (string * pyval).

Fixpoint record_get (r : record) (key : string) : option pyval :=
  match r with
  | [] => None
  | (k, v) :: r' => if String.eqb k key then Some v else record_get r' key
  end.

Definition record_keys (r : record) : list string := map fst r.

Definition required_keys : list string :=
  ["Stock Symbol"; "Company Name"; "Next Earnings Report Date";
   "Dividend Offered"; "Ex-Dividend Date"; "Annual Dividend Yield"].

(** ** Series arithmetic *)

Definition series_sum (amounts : list Q) : Q := fold_right Qplus 0%Q amounts.

(** Line 78:
    [recent_dividends.head(4).sum() if len(recent_dividends) >= 4
     else recent_dividends.sum() * (4 / len(recent_dividends))] *)
Definition annual_div_rate (recent_dividends : list (Timestamp * Q)) : Q :=
  let amounts := map snd recent_dividends in
  if (4 <=? length recent_dividends)%nat
  then series_sum (firstn 4 amounts)
  else (series_sum amounts * (4 / inject_Z (Z.of_nat (length recent_dividends))))%Q.

(** Line 79: [info.get('regularMarketPrice', info.get('currentPrice'))] *)
Definition latest_price (info : gmap string pyval) : pyval :=
  dict_get info "regularMarketPrice" (dict_get info "currentPrice" PyNone).

(** What dividing a double by a value that is not a number raises. *)
Definition division_type_error : exn :=
  Exception "unsupported operand type(s) for /".

(** Line 81: [(annual_div_rate / latest_price) * 100], reached only with a
    truthy [latest_price]. *)
Definition yield_percent (rate : Q) (price : pyval) : result Q :=
  match price with
  | PyNum p => Return (rate / p * 100)%Q
  | _ => Raise division_type_error
  end.

Definition result_bind {A B} (r : result A) (f : A -> result B) : result B :=
  match r with
  | Return a => f a
  | Raise e => Raise e
  end.

(** [DataFrame.empty]: no rows or no columns. *)
Definition frame_empty (ncols nrows : nat) : bool :=
  Nat.eqb ncols 0 || Nat.eqb nrows 0.

(** ** The per-symbol normalizer *)

Section Normalizer.

(** The America/New_York rules, as the two libraries apply them to a naive
    wall-clock reading.  [pd_tz_localize] is pandas' [tz_localize(ny_tz)]:
    the UTC offset, or the exception it raises for a reading that does not
    exist or is ambiguous across a clock change.  [pytz_localize] is
    [ny_tz.localize(dt)], which always picks an offset. *)
Variable pd_tz_localize : WallTime -> result Z.
Variable pytz_localize : WallTime -> Z.

(** Lines 30-35: the company profile.  Yields [company_name], [info] and
    what was printed. *)
Definition profile_facet (ticker_symbol : string) (ticker : Ticker)
  : pyval * gmap string pyval * list string :=
  match info ticker with
  | Return d => (dict_get d "shortName" (PyStr "N/A"), d, [])
  | Raise e =>
      (PyStr "N/A", ∅,
       ["Error getting info for " +:+ ticker_symbol +:+ ": " +:+ exn_str e])
  end.

(** Lines 40-45, method 1: the calendar.  Whatever goes wrong inside is
    swallowed and [next_earnings_date] keeps its value. *)
Definition calendar_method (ticker : Ticker) (next_earnings_date : pyval) : pyval :=
  match calendar ticker with
  | Return (CalendarFrame rows) =>
      match rows !! "Earnings Date" with
      | Some (v :: _) => v
      | Some [] => next_earnings_date
      | None => next_earnings_date
      end
  | Return CalendarOther => next_earnings_date
  | Raise _ => next_earnings_date
  end.

(** Line 60: [earnings_dates.index.tz_localize(ny_tz)] *)
Fixpoint localize_index (stamps : list WallTime) : result (list (WallTime * Z)) :=
  match stamps with
  | [] => Return []
  | w :: rest =>
      result_bind (pd_tz_localize w) (fun off =>
      result_bind (localize_index rest) (fun rest' =>
      Return ((w, off) :: rest')))
  end.

Definition after (current_date : Z) (s : WallTime * Z) : bool :=
  current_date <? instant (fst s) (snd s).

(** Lines 55-62: the index of [future_dates], the rows whose time is
    after [current_date], in the order of the frame.  A row of a naive
    index stays naive. *)
Definition future_dates (current_date : Z) (index : DatetimeIndex)
  : result (list Timestamp) :=
  match index with
  | AwareIndex stamps =>
      Return (map (fun s => mkTimestamp (fst s) (Some (snd s)))
                  (List.filter (after current_date) stamps))
  | NaiveIndex stamps =>
      result_bind (localize_index stamps) (fun localized_dates =>
      Return (map (fun s => mkTimestamp (fst s) None)
                  (List.filter (after current_date) localized_dates)))
  end.

Definition index_length (index : DatetimeIndex) : nat :=
  match index with
  | NaiveIndex stamps => length stamps
  | AwareIndex stamps => length stamps
  end.

(** Lines 49-65, method 2: the time-indexed table. *)
Definition earnings_dates_method (ticker : Ticker) (current_date : Z)
    (next_earnings_date : pyval) : result pyval :=
  result_bind (earnings_dates ticker) (fun ed =>
  match ed with
  | EarningsFrame ncols index =>
      if negb (frame_empty ncols (index_length index)) then
        result_bind (future_dates current_date index) (fun future =>
        if negb (frame_empty ncols (length future))
        then Return (match future with
                     | t :: _ => PyTimestamp t
                     | [] => next_earnings_date
                     end)
        else Return next_earnings_date)
      else Return next_earnings_date
  | EarningsOther => Return next_earnings_date
  end).

(** Lines 38-67: earnings-date resolution.  Yields [next_earnings_date]
    and what was printed. *)
Definition resolve_earnings (ticker_symbol : string) (ticker : Ticker)
    (current_date : Z) : pyval * list string :=
  let next_earnings_date := calendar_method ticker PyNone in
  if negb (truthy next_earnings_date) then
    match earnings_dates_method ticker current_date next_earnings_date with
    | Return v => (v, [])
    | Raise e =>
        (next_earnings_date,
         ["Error getting earnings date for " +:+ ticker_symbol +:+ ": " +:+ exn_str e])
    end
  else (next_earnings_date, []).

(** The three locals the dividend block assigns: a string, a string or
    [None], a double or [None]. *)
Record DividendVars := mkDividendVars {
  dividend_offered : string;
  ex_dividend_date : option string;
  annual_dividend_yield : option Q
}.

(** Lines 70-88: the dividend facet.  An exception leaves the locals as
    they were when it was raised.  In the branch of a non-empty series the
    test [len(recent_dividends) > 0] of line 84 always passes. *)
Definition dividend_facet (ticker_symbol : string) (ticker : Ticker)
    (info : gmap string pyval) : DividendVars * list string :=
  let msg e := "Error getting dividend info for " +:+ ticker_symbol +:+ ": " +:+ exn_str e in
  match dividends ticker with
  | Raise e => (mkDividendVars "No" None None, [msg e])
  | Return [] => (mkDividendVars "No" None None, [])
  | Return (d :: ds) =>
      let recent_dividends := d :: ds in
      let rate := annual_div_rate recent_dividends in
      let price := latest_price info in
      match (if truthy price
             then result_bind (yield_percent rate price) (fun y => Return (Some y))
             else Return None) with
      | Raise e => (mkDividendVars "Yes" None None, [msg e])
      | Return yield =>
          (mkDividendVars "Yes"
             (Some (strftime_ymd (ts_wall (fst (List.last ds d)))))
             yield, [])
      end
  end.

(** Lines 95-105: the far-future check of the earnings date.  Localizing
    a naive timestamp may raise, outside every inner handler. *)
Definition validate_earnings (current_date : Z) (next_earnings_date : pyval)
  : result pyval :=
  if truthy next_earnings_date then
    match next_earnings_date with
    | PyTimestamp t =>
        result_bind
          (match ts_utcoffset t with
           | Some off => Return (instant (ts_wall t) off)
           | None => result_bind (pd_tz_localize (ts_wall t)) (fun off =>
                     Return (instant (ts_wall t) off))
           end)
          (fun next_earnings_date_utc =>
             if current_date + max_future_delta <? next_earnings_date_utc
             then Return PyNone
             else Return next_earnings_date)
    | _ => Return next_earnings_date
    end
  else Return next_earnings_date.

(** Lines 107-114: the far-future check of the ex-dividend date.  Whatever
    goes wrong inside is swallowed. *)
Definition validate_ex_dividend (current_date : Z) (ex_dividend_date : option string)
  : option string :=
  match ex_dividend_date with
  | Some s =>
      if truthy (PyStr s) then
        match strptime_ymd s with
        | Some ex_div_dt =>
            if current_date + max_future_delta <? instant ex_div_dt (pytz_localize ex_div_dt)
            then None
            else ex_dividend_date
        | None => ex_dividend_date
        end
      else ex_dividend_date
  | None => ex_dividend_date
  end.

(** Lines 116-123: the record returned on the normal path. *)
Definition assemble (ticker_symbol : string) (company_name next_earnings_date : pyval)
    (dv : DividendVars) : record :=
  [("Stock Symbol", PyStr ticker_symbol);
   ("Company Name", company_name);
   ("Next Earnings Report Date",
      match next_earnings_date with
      | PyTimestamp t => PyStr (strftime_ymd (ts_wall t))
      | _ => PyStr "N/A"
      end);
   ("Dividend Offered", PyStr (dividend_offered dv));
   ("Ex-Dividend Date",
      match ex_dividend_date dv with
      | Some s => if truthy (PyStr s) then PyStr s else PyStr "N/A"
      | None => PyStr "N/A"
      end);
   ("Annual Dividend Yield",
      match annual_dividend_yield dv with
      | Some y => if truthy (PyNum y) then PyStr (format_2f y +:+ "%") else PyStr "N/A"
      | None => PyStr "N/A"
      end)].

(** Lines 127-134: the record returned by the outer handler. *)
Definition failure_record (ticker_symbol : string) : record :=
  [("Stock Symbol", PyStr ticker_symbol);
   ("Company Name", PyStr "N/A");
   ("Next Earnings Report Date", PyStr "N/A");
   ("Dividend Offered", PyStr "N/A");
   ("Ex-Dividend Date", PyStr "N/A");
   ("Annual Dividend Yield", PyStr "N/A")].

(** Lines 19-123: the body of the outer [try]. *)
Definition get_stock_info_try (env : Env) (ticker_symbol : string)
  : result record * list string :=
  match yf_Ticker env with
  | Raise e => (Raise e, [])
  | Return ticker =>
      let '(company_name, info, out1) := profile_facet ticker_symbol ticker in
      let '(next_earnings_date, out2) :=
        resolve_earnings ticker_symbol ticker (now_resolve env) in
      let '(dv, out3) := dividend_facet ticker_symbol ticker info in
      let out := (out1 ++ out2 ++ out3)%list in
      match validate_earnings (now_validate env) next_earnings_date with
      | Raise e => (Raise e, out)
      | Return next_earnings_date' =>
          let dv' :=
            mkDividendVars (dividend_offered dv)
              (validate_ex_dividend (now_validate env) (ex_dividend_date dv))
              (annual_dividend_yield dv) in
          (Return (assemble ticker_symbol company_name next_earnings_date' dv'), out)
      end
  end.

(** [get_stock_info]: what the call returns or raises, and what it
    printed. *)
Definition get_stock_info (env : Env) (ticker_symbol : string)
  : result record * list string :=
  match get_stock_info_try env ticker_symbol with
  | (Return r, out) => (Return r, out)
  | (Raise e, out) =>
      (Return (failure_record ticker_symbol),
       (out ++ ["Failed to process " +:+ ticker_symbol +:+ ": " +:+ exn_str e])%list)
  end.

(** The value the call stores under [key], when it returns. *)
Definition field (env : Env) (ticker_symbol key : string) : option pyval :=
  match fst (get_stock_info env ticker_symbol) with
  | Return r => record_get r key
  | Raise _ => None
  end.

End Normalizer.

(** ** The batch driver *)

(** What a run of [main] does to the outside: a line on standard output, or
    a call of [df.to_csv(path, index=False)] on the frame built from the
    given rows. *)
Inductive event :=
| Print (line : string)
| ToCsv (path : string) (rows : list record).

(** Line 137 *)
Definition stock_symbols : list string :=
  ["AAPL"; "MSFT"; "GOOGL"; "AMZN"; "TSLA"; "META"; "V"; "JPM"; "DIS"; "NFLX"].

Section Driver.

(** The call [get_stock_info(symbol)] as the driver sees it: it returns
    or raises, and may have printed.  [to_csv] is the outcome of the
    write. *)
Variable normalizer : string -> result record * list string.
Variable to_csv : string -> list record -> result unit.

(** Lines 144-151: the loop, from position [idx] on, with the records and
    the events so far. *)
Fixpoint main_loop (total_stocks idx : nat) (symbols : list string)
    (results : list record) (trace : list event) : list record * list event :=
  match symbols with
  | [] => (results, trace)
  | symbol :: rest =>
      match normalizer symbol with
      | (Return info, printed) =>
          main_loop total_stocks (S idx) rest (results ++ [info])%list
            (trace ++ map Print printed ++
             [Print ("Processed " +:+ symbol +:+ " (" +:+ pretty idx +:+ "/"
                     +:+ pretty total_stocks +:+ ")")])%list
      | (Raise e, printed) =>
          main_loop total_stocks (S idx) rest results
            (trace ++ map Print printed ++
             [Print ("Failed to process " +:+ symbol +:+ ": " +:+ exn_str e)])%list
      end
  end.

(** Lines 141-161, for a given list of symbols. *)
Definition main_on (symbols : list string) : list event :=
  let '(results, trace) := main_loop (length symbols) 1 symbols [] [] in
  match results with
  | _ :: _ =>
      match to_csv "stock_data.csv" results with
      | Return _ =>
          (trace ++ [ToCsv "stock_data.csv" results;
                     Print "Data saved to stock_data.csv"])%list
      | Raise e =>
          (trace ++ [ToCsv "stock_data.csv" results;
                     Print ("Error saving to CSV: " +:+ exn_str e)])%list
      end
  | [] => (trace ++ [Print "No data was collected"])%list
  end.

Definition main : list event := main_on stock_symbols.

(** The records of the symbols whose call returned, in the order of the
    symbol list. *)
Definition collected (symbols : list string) : list record :=
  omap (fun symbol => returned (fst (normalizer symbol))) symbols.

Definition is_write (ev : event) : bool :=
  match ev with
  | ToCsv _ _ => true
  | Print _ => false
  end.

(** The [to_csv] calls of a trace, in order. *)
Definition writes (trace : list event) : list event := List.filter is_write trace.

End Driver.

(** ** The specification's wording, where it is compared with the code *)

(** "The sum of the 4 most recent payments" of a history that is ordered
    oldest first, and the scaled sum of a shorter one. *)
Definition spec_annual_div_rate (history : list (Timestamp * Q)) : Q :=
  let amounts := map snd history in
  if (4 <=? length history)%nat
  then series_sum (skipn (length amounts - 4) amounts)
  else (series_sum amounts * (4 / inject_Z (Z.of_nat (length history))))%Q.

(** "Profile current price, falling back to regular market price". *)
Definition spec_latest_price (info : gmap string pyval) : pyval :=
  dict_get info "currentPrice" (dict_get info "regularMarketPrice" PyNone).

(** "The earliest future date" of a zone-aware index. *)
Definition spec_earliest_future (current_date : Z) (stamps : list (WallTime * Z))
  : option (WallTime * Z) :=
  fold_right
    (fun s best =>
       match best with
       | None => Some s
       | Some b => if instant (fst s) (snd s) <? instant (fst b) (snd b)
                   then Some s else Some b
       end)
    None
    (List.filter (fun s => current_date <? instant (fst s) (snd s)) stamps).

(** The point in time of a timestamp, "naive timestamps treated as
    exchange-local": defined when a naive reading can be localized. *)
Definition utc_instant (pd_tz_localize : WallTime -> result Z) (t : Timestamp)
  : result Z :=
  match ts_utcoffset t with
  | Some off => Return (instant (ts_wall t) off)
  | None => result_bind (pd_tz_localize (ts_wall t)) (fun off =>
            Return (instant (ts_wall t) off))
  end.

(** The calendar date of a reading, as a naive midnight. *)
Definition date_of (w : WallTime) : WallTime :=
  mkWallTime (wt_year w) (wt_month w) (wt_day w) 0.

(** No error escapes the inner handlers of the call. *)
Definition returns_normally (pd_tz_localize : WallTime -> result Z)
    (pytz_localize : WallTime -> Z) (env : Env) (ticker_symbol : string) : Prop :=
  exists r, fst (get_stock_info_try pd_tz_localize pytz_localize env ticker_symbol) = Return r.

(** The record of the normal path, from the ticker and the validated
    earnings date. *)
Definition normal_record (pytz_localize : WallTime -> Z) (env : Env)
    (ticker_symbol : string) (ticker : Ticker) (next_earnings_date : pyval) : record :=
  let pf := profile_facet ticker_symbol ticker in
  let dv := fst (dividend_facet ticker_symbol ticker (snd (fst pf))) in
  assemble ticker_symbol (fst (fst pf)) next_earnings_date
    (mkDividendVars (dividend_offered dv)
       (validate_ex_dividend pytz_localize (now_validate env) (ex_dividend_date dv))
       (annual_dividend_yield dv)).

(** ** Concrete inputs *)

(** A zone without clock changes, five hours behind UTC, on which the
    general statements are exercised. *)
Definition est_offset : Z := -5 * 3600 * 1000000000.
Definition pytz_est (w : WallTime) : Z := est_offset.
Definition pd_est (w : WallTime) : result Z := Return est_offset.

Definition midnight (y m d : Z) : WallTime := mkWallTime y m d 0.
Definition aware (y m d : Z) : Timestamp := mkTimestamp (midnight y m d) (Some est_offset).

(** The clock reads 2025-01-01 00:00 in New York. *)
Definition now0 : Z := instant (midnight 2025 1 1) est_offset.

Definition boom : exn := Exception "upstream unavailable".

Definition ticker_all_raise : Ticker :=
  mkTicker (Raise boom) (Raise boom) (Raise boom) (Raise boom).

Definition env_all_raise : Env := mkEnv (Return ticker_all_raise) now0 now0.

Definition env_ticker_raises : Env := mkEnv (Raise boom) now0 now0.

(** Five payments, oldest first: four of 1.00 and a latest one of 5.00. *)
Definition history5 : list (Timestamp * Q) :=
  [(aware 2024 1 15, 1%Q); (aware 2024 4 15, 1%Q); (aware 2024 7 15, 1%Q);
   (aware 2024 10 15, 1%Q); (aware 2025 1 15, 5%Q)].

(** Two payments of 0.50. *)
Definition history2 : list (Timestamp * Q) :=
  [(aware 2024 7 15, (1 # 2)%Q); (aware 2024 10 15, (1 # 2)%Q)].

(** Four payments of 1.00. *)
Definition history4 : list (Timestamp * Q) :=
  [(aware 2024 1 15, 1%Q); (aware 2024 4 15, 1%Q); (aware 2024 7 15, 1%Q);
   (aware 2024 10 15, 1%Q)].

(** A profile with both price fields, at different values. *)
Definition info_both : gmap string pyval :=
  <["regularMarketPrice" := PyNum 50]> (<["currentPrice" := PyNum 100]> ∅).

Definition ticker_both : Ticker :=
  mkTicker (Return info_both) (Raise boom) (Raise boom) (Return history4).

Definition env_both : Env := mkEnv (Return ticker_both) now0 now0.

(** The profile raises; two payments of 0.50. *)
Definition ticker_no_profile : Ticker :=
  mkTicker (Raise boom) (Raise boom) (Raise boom) (Return history2).

Definition env_no_profile : Env := mkEnv (Return ticker_no_profile) now0 now0.

(** A profile whose price is 0. *)
Definition info_zero_price : gmap string pyval :=
  <["regularMarketPrice" := PyNum 0]> ∅.

Definition ticker_zero_price : Ticker :=
  mkTicker (Return info_zero_price) (Raise boom) (Raise boom) (Return history4).

Definition env_zero_price : Env := mkEnv (Return ticker_zero_price) now0 now0.

(** An earnings date and a last dividend one year after [now0]. *)
Definition calendar_far : Calendar :=
  CalendarFrame (<["Earnings Date" := [PyTimestamp (aware 2026 1 1)]]> ∅).

Definition history_far : list (Timestamp * Q) :=
  [(aware 2025 10 1, 1%Q); (aware 2026 1 1, 1%Q)].

Definition ticker_far : Ticker :=
  mkTicker (Raise boom) (Return calendar_far) (Raise boom) (Return history_far).

Definition env_far : Env := mkEnv (Return ticker_far) now0 now0.

(** An earnings table as the client delivers it, latest date first: 60 and
    30 days after [now0]; the calendar has no "Earnings Date" row. *)
Definition index_latest_first : list (WallTime * Z) :=
  [(midnight 2025 3 2, est_offset); (midnight 2025 1 31, est_offset)].

Definition ticker_latest_first : Ticker :=
  mkTicker (Raise boom) (Return (CalendarFrame ∅))
    (Return (EarningsFrame 4 (AwareIndex index_latest_first))) (Return []).

Definition env_latest_first : Env := mkEnv (Return ticker_latest_first) now0 now0.

(** A complete ticker: profile with name and price, a naive earnings table
    with one past date and one date 30 days after [now0], two payments of
    0.50. *)
Definition info_full : gmap string pyval :=
  <["shortName" := PyStr "Apple Inc."]> (<["currentPrice" := PyNum 100]> ∅).

Definition ticker_full : Ticker :=
  mkTicker (Return info_full) (Return (CalendarFrame ∅))
    (Return (EarningsFrame 4 (NaiveIndex [midnight 2025 1 31; midnight 2024 10 31])))
    (Return history2).

Definition env_full : Env := mkEnv (Return ticker_full) now0 now0.

(** The clock reads 2025-12-01 00:00 in New York. *)
Definition now_late : Z := instant (midnight 2025 12 1) est_offset.

Definition env_far_late : Env := mkEnv (Return ticker_far) now_late now_late.

(** A normalizer call that always raises, and one that always returns. *)
Definition normalizer_raises (symbol : string) : result record * list string :=
  (Raise boom, []).

Definition normalizer_returns (symbol : string) : result record * list string :=
  (Return (failure_record symbol), []).

Definition to_csv_ok (path : string) (rows : list record) : result unit := Return tt.

(** A profile whose "regular market price" is present but [None], next to
    a usable "current price". *)
Definition info_regular_none : gmap string pyval :=
  <["regularMarketPrice" := PyNone]> (<["currentPrice" := PyNum 100]> ∅).

Definition ticker_regular_none : Ticker :=
  mkTicker (Return info_regular_none) (Raise boom) (Raise boom) (Return history2).

Definition env_regular_none : Env := mkEnv (Return ticker_regular_none) now0 now0.

(** A profile whose price is a text. *)
Definition info_text_price : gmap string pyval :=
  <["regularMarketPrice" := PyStr "n/a"]> ∅.

Definition ticker_text_price : Ticker :=
  mkTicker (Return info_text_price) (Raise boom) (Raise boom) (Return history2).

Definition env_text_price : Env := mkEnv (Return ticker_text_price) now0 now0.

(** A calendar whose "Earnings Date" row holds a text, next to an earnings
    table with a date 30 days after [now0]. *)
Definition rows_text : gmap string (list pyval) :=
  <["Earnings Date" := [PyStr "2025-01-31"]]> ∅.

Definition ticker_calendar_text : Ticker :=
  mkTicker (Return info_full) (Return (CalendarFrame rows_text))
    (Return (EarningsFrame 4 (AwareIndex [(midnight 2025 1 31, est_offset)])))
    (Return history2).

Definition env_calendar_text : Env := mkEnv (Return ticker_calendar_text) now0 now0.

(** An earnings table in ascending order: one past date, then 30 and 60 days
    after [now0]. *)
Definition index_earliest_first : list (WallTime * Z) :=
  [(midnight 2024 10 31, est_offset); (midnight 2025 1 31, est_offset);
   (midnight 2025 3 2, est_offset)].

Definition ticker_earliest_first : Ticker :=
  mkTicker (Raise boom) (Return (CalendarFrame ∅))
    (Return (EarningsFrame 4 (AwareIndex index_earliest_first))) (Return []).

(** A localizer that rejects every reading. *)
Definition pd_rejects (w : WallTime) : result Z :=
  Raise (Exception "NonExistentTimeError").

(** The driver as the program runs it: each symbol is handed to
    [get_stock_info], in the world [envs] gives for that call. *)
Definition main_with_get_stock_info (pd_tz_localize : WallTime -> result Z)
    (pytz_localize : WallTime -> Z) (envs : string -> Env)
    (to_csv : string -> list record -> result unit) (symbols : list string)
  : list event :=
  main_on (fun symbol => get_stock_info pd_tz_localize pytz_localize (envs symbol) symbol)
    to_csv symbols.

(** The instant of a row of a zone-aware index. *)
Definition row_instant (s : WallTime * Z) : Z := instant (fst s) (snd s).

(** A normalizer call that raises for "MSFT" only. *)
Definition normalizer_skips_msft (symbol : string) : result record * list string :=
  if String.eqb symbol "MSFT" then (Raise boom, [])
  else (Return (failure_record symbol), []).

Definition to_csv_fails (path : string) (rows : list record) : result unit :=
  Raise (Exception "Permission denied").

(** ** Shape of the result *)

Section NormalizerFacts.

Variable pd_tz_localize : WallTime -> result Z.
Variable pytz_localize : WallTime -> Z.

Local Abbreviation get_stock_info := (get_stock_info pd_tz_localize pytz_localize).
Local Abbreviation get_stock_info_try := (get_stock_info_try pd_tz_localize pytz_localize).
Local Abbreviation field := (field pd_tz_localize pytz_localize).
Local Abbreviation normal_record := (normal_record pytz_localize).

Lemma get_stock_info_normal env sym ticker ned :
  yf_Ticker env = Return ticker ->
  validate_earnings pd_tz_localize (now_validate env)
    (fst (resolve_earnings pd_tz_localize sym ticker (now_resolve env))) = Return ned ->
  fst (get_stock_info env sym) = Return (normal_record env sym ticker ned).
Proof.
  intros Htk Hval.
  unfold get_stock_info, get_stock_info_try, normal_record. rewrite Htk.
  destruct (profile_facet sym ticker) as [[cn d] out1]. cbn [fst snd].
  destruct (resolve_earnings pd_tz_localize sym ticker (now_resolve env)) as [ned0 out2].
  destruct (dividend_facet sym ticker d) as [dv out3]. cbn [fst snd] in *.
  rewrite Hval. reflexivity.
Qed.

(** The call returns one of two records: the failure record, or the
    assembled one when the ticker was obtained and the earnings check did
    not raise. *)
Lemma get_stock_info_cases env sym :
  fst (get_stock_info env sym) = Return (failure_record sym) \/
  exists ticker ned,
    yf_Ticker env = Return ticker /\
    validate_earnings pd_tz_localize (now_validate env)
      (fst (resolve_earnings pd_tz_localize sym ticker (now_resolve env))) = Return ned /\
    fst (get_stock_info env sym) = Return (normal_record env sym ticker ned).
Proof.
  destruct (yf_Ticker env) as [ticker|e] eqn:Htk.
  - destruct (validate_earnings pd_tz_localize (now_validate env)
      (fst (resolve_earnings pd_tz_localize sym ticker (now_resolve env))))
      as [ned|e] eqn:Hval.
    + right. exists ticker, ned. eauto using get_stock_info_normal.
    + left. unfold get_stock_info, get_stock_info_try. rewrite Htk.
      destruct (profile_facet sym ticker) as [[cn d] out1].
      destruct (resolve_earnings pd_tz_localize sym ticker (now_resolve env)) as [ned0 out2].
      destruct (dividend_facet sym ticker d) as [dv out3]. cbn [fst snd] in *.
      rewrite Hval. reflexivity.
  - left. unfold get_stock_info, get_stock_info_try. rewrite Htk. reflexivity.
Qed.

Lemma field_failure_record sym key :
  In key required_keys ->
  record_get (failure_record sym) key =
    Some (if String.eqb key "Stock Symbol" then PyStr sym else PyStr "N/A").
Proof.
  intros H. cbn in H.
  repeat (destruct H as [<-|H]; [reflexivity|]). contradiction.
Qed.

(** The dividend block leaves [dividend_offered] at "Yes" or "No". *)
Lemma dividend_facet_offered sym ticker d :
  dividend_offered (fst (dividend_facet sym ticker d)) = "Yes" \/
  dividend_offered (fst (dividend_facet sym ticker d)) = "No".
Proof.
  unfold dividend_facet.
  destruct (dividends ticker) as [[|x xs]|e]; cbn; auto.
  destruct (truthy (latest_price d)); cbn; auto.
  destruct (yield_percent _ _); cbn; auto.
Qed.

(** On the normal path "Dividend Offered" is "Yes" or "No". *)
Lemma dividend_offered_normal env sym :
  returns_normally pd_tz_localize pytz_localize env sym ->
  field env sym "Dividend Offered" = Some (PyStr "Yes") \/
  field env sym "Dividend Offered" = Some (PyStr "No").
Proof.
  intros [r Hr]. unfold field.
  unfold get_stock_info_try in Hr. unfold get_stock_info, get_stock_info_try.
  destruct (yf_Ticker env) as [ticker|e]; [|discriminate].
  destruct (profile_facet sym ticker) as [[cn d] out1].
  destruct (resolve_earnings pd_tz_localize sym ticker (now_resolve env)) as [ned0 out2].
  pose proof (dividend_facet_offered sym ticker d) as Hoff.
  destruct (dividend_facet sym ticker d) as [dv out3]. cbn [fst snd] in *.
  destruct (validate_earnings pd_tz_localize (now_validate env) ned0) as [ned|e];
    [|discriminate].
  cbn. destruct Hoff as [-> | ->]; auto.
Qed.

End NormalizerFacts.

(** ** The embedding at work *)

(** A complete ticker: the name, the next earnings date from the naive
    table, the latest payment's date, and 0.50 + 0.50 annualized over the
    fallback price 100. *)
Example get_stock_info_full :
  get_stock_info pd_est pytz_est env_full "AAPL" =
    (Return [("Stock Symbol", PyStr "AAPL");
             ("Company Name", PyStr "Apple Inc.");
             ("Next Earnings Report Date", PyStr "2025-01-31");
             ("Dividend Offered", PyStr "Yes");
             ("Ex-Dividend Date", PyStr "2024-10-15");
             ("Annual Dividend Yield", PyStr "2.00%")],
     []).
Proof. vm_compute. reflexivity. Qed.

(** Dates within 180 days of "now" pass the filter. *)
Example get_stock_info_near_dates :
  get_stock_info pd_est pytz_est env_far_late "AAPL" =
    (Return [("Stock Symbol", PyStr "AAPL");
             ("Company Name", PyStr "N/A");
             ("Next Earnings Report Date", PyStr "2026-01-01");
             ("Dividend Offered", PyStr "Yes");
             ("Ex-Dividend Date", PyStr "2026-01-01");
             ("Annual Dividend Yield", PyStr "N/A")],
     ["Error getting info for AAPL: upstream unavailable"]).
Proof. vm_compute. reflexivity. Qed.

(** An error that reaches the outer handler is printed last. *)
Example get_stock_info_ticker_raises :
  get_stock_info pd_est pytz_est env_ticker_raises "AAPL" =
    (Return (failure_record "AAPL"),
     ["Failed to process AAPL: upstream unavailable"]).
Proof. vm_compute. reflexivity. Qed.

(** A naive earnings date that cannot be localized escapes the inner
    handlers: the check of line 101 is outside them. *)
Example get_stock_info_localize_raises :
  get_stock_info (fun _ => Raise (Exception "NonExistentTimeError")) pytz_est env_far "AAPL"
  = get_stock_info pd_est pytz_est env_far "AAPL" /\
  fst (get_stock_info (fun _ => Raise (Exception "NonExistentTimeError")) pytz_est
         (mkEnv (Return (mkTicker (Raise boom)
                           (Return (CalendarFrame
                              (<["Earnings Date" :=
                                 [PyTimestamp (mkTimestamp (midnight 2025 3 9) None)]]> ∅)))
                           (Raise boom) (Return history2)))
                now0 now0) "AAPL")
  = Return (failure_record "AAPL").
Proof. split; vm_compute; reflexivity. Qed.

(** ** Totality and the six fields *)

(** C4: whatever the market-data client does (the ticker cannot be built, a
    property is missing, empty or raises) and whatever the zone rules are,
    [get_stock_info] returns and does not raise, and the record it returns
    has exactly the six keys Stock Symbol, Company Name, Next Earnings
    Report Date, Dividend Offered, Ex-Dividend Date and Annual Dividend
    Yield, in this order, each one bound to a value. *)
Theorem get_stock_info_total_six_fields
    (pd_tz_localize : WallTime -> result Z) (pytz_localize : WallTime -> Z)
    (env : Env) (ticker_symbol : string) :
  exists r out,
    get_stock_info pd_tz_localize pytz_localize env ticker_symbol = (Return r, out) /\
    record_keys r = required_keys /\
    Forall (fun key => is_Some (record_get r key)) required_keys.
Proof.
  unfold get_stock_info, get_stock_info_try.
  destruct (yf_Ticker env) as [ticker|e].
  - destruct (profile_facet ticker_symbol ticker) as [[cn d] out1].
    destruct (resolve_earnings pd_tz_localize ticker_symbol ticker (now_resolve env))
      as [ned0 out2].
    destruct (dividend_facet ticker_symbol ticker d) as [dv out3].
    destruct (validate_earnings pd_tz_localize (now_validate env) ned0) as [ned|e];
      do 2 eexists; (split; [reflexivity|]); (split; [reflexivity|]);
      repeat constructor; cbn; eauto.
  - do 2 eexists. split; [reflexivity|]. split; [reflexivity|].
    repeat constructor; cbn; eauto.
Qed.

(** ** The dividend-offered flag *)

(** C3, at the failing input: when [yf.Ticker("AAPL")] raises, the error
    reaches the outer handler and the record carries "N/A" under "Dividend
    Offered", which is neither "Yes" nor "No". *)
Theorem dividend_offered_on_outer_failure :
  field pd_est pytz_est env_ticker_raises "AAPL" "Dividend Offered" = Some (PyStr "N/A") /\
  field pd_est pytz_est env_ticker_raises "AAPL" "Dividend Offered" <> Some (PyStr "Yes") /\
  field pd_est pytz_est env_ticker_raises "AAPL" "Dividend Offered" <> Some (PyStr "No").
Proof.
  repeat split; vm_compute; congruence.
Qed.

(** ** All three facets raise *)

(** C8, as stated, fails: with the profile, both earnings sources and the
    dividend history raising, "Dividend Offered" is "No", not "N/A". *)
Lemma all_raise_dividend_offered_is_no :
  field pd_est pytz_est env_all_raise "AAPL" "Dividend Offered" = Some (PyStr "No") /\
  field pd_est pytz_est env_all_raise "AAPL" "Dividend Offered" <> Some (PyStr "N/A").
Proof.
  split; vm_compute; congruence.
Qed.

(** C8, amended: when the ticker is obtained and the profile, the calendar,
    the earnings table and the dividend history all raise, the record holds
    the input symbol under "Stock Symbol", "No" under "Dividend Offered",
    and "N/A" in the four other fields. *)
Theorem all_facets_raise_record
    (pd_tz_localize : WallTime -> result Z) (pytz_localize : WallTime -> Z)
    (env : Env) (ticker_symbol : string) (ticker : Ticker) (e1 e2 e3 e4 : exn) :
  yf_Ticker env = Return ticker ->
  info ticker = Raise e1 ->
  calendar ticker = Raise e2 ->
  earnings_dates ticker = Raise e3 ->
  dividends ticker = Raise e4 ->
  fst (get_stock_info pd_tz_localize pytz_localize env ticker_symbol) =
    Return [("Stock Symbol", PyStr ticker_symbol);
            ("Company Name", PyStr "N/A");
            ("Next Earnings Report Date", PyStr "N/A");
            ("Dividend Offered", PyStr "No");
            ("Ex-Dividend Date", PyStr "N/A");
            ("Annual Dividend Yield", PyStr "N/A")].
Proof.
  intros Htk Hinfo Hcal Hed Hdiv.
  unfold get_stock_info, get_stock_info_try, profile_facet, resolve_earnings,
    calendar_method, earnings_dates_method, dividend_facet.
  rewrite Htk, Hinfo, Hcal, Hed, Hdiv. reflexivity.
Qed.

Lemma all_facets_raise_record_witness :
  yf_Ticker env_all_raise = Return ticker_all_raise /\
  fst (get_stock_info pd_est pytz_est env_all_raise "AAPL") =
    Return [("Stock Symbol", PyStr "AAPL");
            ("Company Name", PyStr "N/A");
            ("Next Earnings Report Date", PyStr "N/A");
            ("Dividend Offered", PyStr "No");
            ("Ex-Dividend Date", PyStr "N/A");
            ("Annual Dividend Yield", PyStr "N/A")].
Proof.
  split; [reflexivity|].
  apply (all_facets_raise_record pd_est pytz_est env_all_raise "AAPL"
           ticker_all_raise boom boom boom boom); reflexivity.
Defined.

(** ** The trailing dividend rate *)

Lemma series_sum_zero (amounts : list Q) :
  Forall (fun a => a == 0)%Q amounts -> (series_sum amounts == 0)%Q.
Proof.
  induction 1 as [|a amounts Ha _ IH]; cbn; [reflexivity|].
  rewrite Ha, IH. reflexivity.
Qed.

Lemma Forall_firstn {A} (P : A -> Prop) (n : nat) (l : list A) :
  Forall P l -> Forall P (firstn n l).
Proof.
  intros H. revert n. induction H as [|x l Hx _ IH]; intros [|n]; cbn; auto.
Qed.

(** A history of zero payments has rate zero. *)
Lemma annual_div_rate_zero (history : list (Timestamp * Q)) :
  Forall (fun d => snd d == 0)%Q history -> (annual_div_rate history == 0)%Q.
Proof.
  intros H.
  assert (Hamt : Forall (fun a => a == 0)%Q (map snd history)).
  { induction H; cbn; constructor; auto. }
  unfold annual_div_rate. destruct (4 <=? length history)%nat.
  - apply series_sum_zero, Forall_firstn, Hamt.
  - rewrite (series_sum_zero _ Hamt). apply Qmult_0_l.
Qed.

(** The code and the specification agree on histories of at most four
    payments: below four both scale the whole sum, and at four the first
    four are the last four. *)
Lemma annual_div_rate_upto_four (history : list (Timestamp * Q)) :
  (length history <= 4)%nat ->
  annual_div_rate history = spec_annual_div_rate history.
Proof.
  intros Hlen. unfold annual_div_rate, spec_annual_div_rate.
  destruct (4 <=? length history)%nat eqn:H4; [|reflexivity].
  apply Nat.leb_le in H4.
  assert (Hl : length (map snd history) = 4%nat) by (rewrite length_map; lia).
  rewrite Hl, Nat.sub_diag. cbn [skipn].
  rewrite <- Hl, firstn_all. reflexivity.
Qed.

(** C1, at the failing input: for the history 1.00, 1.00, 1.00, 1.00, 5.00
    (oldest first) line 78 sums the four oldest payments and yields 4.00;
    the four most recent payments sum to 8.00. *)
Theorem annual_div_rate_sums_oldest_four :
  (annual_div_rate history5 == 4)%Q /\
  (spec_annual_div_rate history5 == 8)%Q /\
  ~ (annual_div_rate history5 == spec_annual_div_rate history5)%Q.
Proof.
  repeat split; vm_compute; congruence.
Qed.

(** ** The price and the yield *)

Section YieldFacts.

Variable pd_tz_localize : WallTime -> result Z.
Variable pytz_localize : WallTime -> Z.

Local Abbreviation field := (field pd_tz_localize pytz_localize).

Lemma profile_facet_info sym ticker d :
  info ticker = Return d ->
  profile_facet sym ticker = (dict_get d "shortName" (PyStr "N/A"), d, []).
Proof. intros H. unfold profile_facet. rewrite H. reflexivity. Qed.

Lemma profile_facet_raise sym ticker e :
  info ticker = Raise e ->
  fst (profile_facet sym ticker) = (PyStr "N/A", ∅).
Proof. intros H. unfold profile_facet. rewrite H. reflexivity. Qed.

(** What line 81 computes for a numeric price. *)
Lemma dividend_facet_yield sym ticker d x xs p :
  dividends ticker = Return (x :: xs) ->
  latest_price d = PyNum p ->
  annual_dividend_yield (fst (dividend_facet sym ticker d)) =
    if Qeq_bool p 0 then None else Some (annual_div_rate (x :: xs) / p * 100)%Q.
Proof.
  intros Hdiv Hp. unfold dividend_facet. rewrite Hdiv, Hp. cbn.
  destruct (Qeq_bool p 0); reflexivity.
Qed.

(** Without a price the yield stays unset, whatever the history. *)
Lemma dividend_facet_no_price sym ticker d :
  latest_price d = PyNone ->
  annual_dividend_yield (fst (dividend_facet sym ticker d)) = None.
Proof.
  intros Hp. unfold dividend_facet. rewrite Hp.
  destruct (dividends ticker) as [[|x xs]|e]; reflexivity.
Qed.

(** An unset or zero yield is reported as "N/A", on either return path. *)
Lemma yield_field_na env sym ticker :
  yf_Ticker env = Return ticker ->
  (forall y,
     annual_dividend_yield
       (fst (dividend_facet sym ticker (snd (fst (profile_facet sym ticker))))) = Some y ->
     (y == 0)%Q) ->
  field env sym "Annual Dividend Yield" = Some (PyStr "N/A").
Proof.
  intros Htk Hy. unfold field.
  destruct (get_stock_info_cases pd_tz_localize pytz_localize env sym)
    as [-> | (ticker' & ned & Htk' & _ & ->)]; [reflexivity|].
  rewrite Htk in Htk'. injection Htk' as <-.
  unfold normal_record. cbn.
  destruct (annual_dividend_yield _) as [y|]; [|reflexivity].
  rewrite (proj2 (Qeq_bool_iff y 0) (Hy y eq_refl)). reflexivity.
Qed.

Lemma returns_normally_inv env sym ticker :
  yf_Ticker env = Return ticker ->
  returns_normally pd_tz_localize pytz_localize env sym ->
  exists ned,
    fst (get_stock_info pd_tz_localize pytz_localize env sym) =
      Return (normal_record pytz_localize env sym ticker ned).
Proof.
  intros Htk [r Hr].
  destruct (validate_earnings pd_tz_localize (now_validate env)
      (fst (resolve_earnings pd_tz_localize sym ticker (now_resolve env))))
      as [ned|e] eqn:Hval.
  - exists ned. eauto using get_stock_info_normal.
  - exfalso. unfold get_stock_info_try in Hr. rewrite Htk in Hr.
    destruct (profile_facet sym ticker) as [[cn d] out1].
    destruct (resolve_earnings pd_tz_localize sym ticker (now_resolve env)) as [ned0 out2].
    destruct (dividend_facet sym ticker d) as [dv out3]. cbn [fst snd] in *.
    rewrite Hval in Hr. discriminate.
Qed.

End YieldFacts.

(** C2, as stated, fails: with both price fields present the code reads
    "regular market price" (50), where the claim has "current price" (100);
    the reported yield of four payments of 1.00 is 8.00%, not 4.00%. *)
Lemma latest_price_is_not_current_first :
  latest_price info_both = PyNum 50 /\
  spec_latest_price info_both = PyNum 100 /\
  latest_price info_both <> spec_latest_price info_both /\
  field pd_est pytz_est env_both "AAPL" "Annual Dividend Yield" = Some (PyStr "8.00%").
Proof.
  repeat split; vm_compute; congruence.
Qed.

(** C2, amended: the latest price is the profile's "regular market price"
    field whenever that key is present, and the "current price" field only
    when the "regular market price" key is absent; a numeric non-zero price
    is the divisor of the yield; and when neither key is present the yield
    stays unset and "Annual Dividend Yield" is "N/A". *)
Theorem latest_price_regular_then_current
    (pd_tz_localize : WallTime -> result Z) (pytz_localize : WallTime -> Z)
    (env : Env) (ticker_symbol : string) (ticker : Ticker) (d : gmap string pyval) :
  yf_Ticker env = Return ticker ->
  info ticker = Return d ->
  (forall v, d !! "regularMarketPrice" = Some v -> latest_price d = v) /\
  (d !! "regularMarketPrice" = None ->
   forall v, d !! "currentPrice" = Some v -> latest_price d = v) /\
  (forall x xs p,
     dividends ticker = Return (x :: xs) -> latest_price d = PyNum p -> ~ (p == 0)%Q ->
     annual_dividend_yield (fst (dividend_facet ticker_symbol ticker d)) =
       Some (annual_div_rate (x :: xs) / p * 100)%Q) /\
  (d !! "regularMarketPrice" = None -> d !! "currentPrice" = None ->
   annual_dividend_yield (fst (dividend_facet ticker_symbol ticker d)) = None /\
   field pd_tz_localize pytz_localize env ticker_symbol "Annual Dividend Yield" =
     Some (PyStr "N/A")).
Proof.
  intros Htk Hinfo. split; [|split; [|split]].
  - intros v Hv. unfold latest_price, dict_get. rewrite Hv. reflexivity.
  - intros Hreg v Hv. unfold latest_price, dict_get. rewrite Hreg, Hv. reflexivity.
  - intros x xs p Hdiv Hp Hnz.
    rewrite (dividend_facet_yield _ _ _ x xs p Hdiv Hp).
    destruct (Qeq_bool p 0) eqn:E; [|reflexivity].
    apply Qeq_bool_eq in E. contradiction.
  - intros Hreg Hcur.
    assert (Hp : latest_price d = PyNone).
    { unfold latest_price, dict_get. rewrite Hreg, Hcur. reflexivity. }
    split; [apply dividend_facet_no_price, Hp|].
    apply (yield_field_na _ _ _ _ ticker Htk).
    rewrite (profile_facet_info _ _ _ Hinfo). cbn [fst snd].
    rewrite (dividend_facet_no_price _ _ _ Hp). discriminate.
Qed.

Lemma latest_price_regular_then_current_witness :
  yf_Ticker env_both = Return ticker_both /\
  info ticker_both = Return info_both /\
  latest_price info_both = PyNum 50.
Proof.
  split; [reflexivity|]. split; [reflexivity|].
  destruct (latest_price_regular_then_current pd_est pytz_est env_both "AAPL"
              ticker_both info_both eq_refl eq_refl) as [Hregular _].
  apply Hregular. reflexivity.
Defined.

(** C7, as stated, fails: when the profile fetch raises there is no price
    (line 35 leaves [info] empty, and the price is read from [info] only),
    so with two payments of 0.50 the yield field is "N/A", not "2.00%". *)
Lemma scenario_profile_raises_yield_is_na :
  field pd_est pytz_est env_no_profile "AAPL" "Annual Dividend Yield" = Some (PyStr "N/A") /\
  field pd_est pytz_est env_no_profile "AAPL" "Annual Dividend Yield" <> Some (PyStr "2.00%").
Proof.
  split; vm_compute; congruence.
Qed.

(** C7, amended: for a dividend history of exactly two payments of 0.50,
    when no error escapes the inner handlers, the annualized rate is
    1.00 * (4/2) = 2.00 and "Dividend Offered" is "Yes"; if the profile fetch
    raises, "Company Name" is "N/A" and, no price being available, "Annual
    Dividend Yield" is "N/A"; if instead the profile is fetched and its
    latest price is 100, "Annual Dividend Yield" is "2.00%". *)
Theorem scenario_two_half_payments
    (pd_tz_localize : WallTime -> result Z) (pytz_localize : WallTime -> Z)
    (env : Env) (ticker_symbol : string) (ticker : Ticker) (t1 t2 : Timestamp) :
  yf_Ticker env = Return ticker ->
  dividends ticker = Return [(t1, (1 # 2)%Q); (t2, (1 # 2)%Q)] ->
  returns_normally pd_tz_localize pytz_localize env ticker_symbol ->
  let field := field pd_tz_localize pytz_localize env ticker_symbol in
  (annual_div_rate [(t1, (1 # 2)%Q); (t2, (1 # 2)%Q)] == 2)%Q /\
  field "Dividend Offered" = Some (PyStr "Yes") /\
  (forall e, info ticker = Raise e ->
     field "Company Name" = Some (PyStr "N/A") /\
     field "Annual Dividend Yield" = Some (PyStr "N/A")) /\
  (forall d, info ticker = Return d -> latest_price d = PyNum 100 ->
     field "Annual Dividend Yield" = Some (PyStr "2.00%")).
Proof.
  intros Htk Hdiv Hnormal field0. subst field0. unfold field.
  destruct (returns_normally_inv _ _ _ _ _ Htk Hnormal) as [ned ->].
  unfold normal_record. split; [|split; [|split]].
  - vm_compute. reflexivity.
  - unfold dividend_facet. rewrite Hdiv. cbn.
    destruct (truthy (latest_price _)); cbn; [|reflexivity].
    destruct (yield_percent _ _); reflexivity.
  - intros e He. rewrite (profile_facet_raise _ _ _ He). cbn [fst snd].
    unfold dividend_facet. rewrite Hdiv. split; reflexivity.
  - intros d Hd Hp. rewrite (profile_facet_info _ _ _ Hd). cbn [fst snd].
    unfold dividend_facet. rewrite Hdiv, Hp. reflexivity.
Qed.

Lemma scenario_two_half_payments_witness :
  yf_Ticker env_no_profile = Return ticker_no_profile /\
  dividends ticker_no_profile = Return history2 /\
  returns_normally pd_est pytz_est env_no_profile "AAPL" /\
  field pd_est pytz_est env_no_profile "AAPL" "Dividend Offered" = Some (PyStr "Yes").
Proof.
  assert (Hn : returns_normally pd_est pytz_est env_no_profile "AAPL").
  { eexists. vm_compute. reflexivity. }
  split; [reflexivity|]. split; [reflexivity|]. split; [exact Hn|].
  destruct (scenario_two_half_payments pd_est pytz_est env_no_profile "AAPL"
              ticker_no_profile (aware 2024 7 15) (aware 2024 10 15)
              eq_refl eq_refl Hn) as (_ & Hoffered & _).
  exact Hoffered.
Defined.

(** C10: with a non-empty dividend history and a numeric price, if the
    price is 0 (it then counts as no price and nothing is divided by it), or
    the computed yield is 0, or every payment amount is 0, then "Annual
    Dividend Yield" is "N/A". *)
Theorem zero_yield_or_zero_price_is_na
    (pd_tz_localize : WallTime -> result Z) (pytz_localize : WallTime -> Z)
    (env : Env) (ticker_symbol : string) (ticker : Ticker)
    (d : gmap string pyval) (x : Timestamp * Q) (xs : list (Timestamp * Q)) (p : Q) :
  yf_Ticker env = Return ticker ->
  info ticker = Return d ->
  dividends ticker = Return (x :: xs) ->
  latest_price d = PyNum p ->
  ((p == 0)%Q \/
   (annual_div_rate (x :: xs) / p * 100 == 0)%Q \/
   Forall (fun a => snd a == 0)%Q (x :: xs)) ->
  field pd_tz_localize pytz_localize env ticker_symbol "Annual Dividend Yield" =
    Some (PyStr "N/A").
Proof.
  intros Htk Hinfo Hdiv Hp Hzero.
  apply (yield_field_na _ _ _ _ ticker Htk).
  rewrite (profile_facet_info _ _ _ Hinfo). cbn [fst snd].
  rewrite (dividend_facet_yield _ _ _ x xs p Hdiv Hp).
  destruct (Qeq_bool p 0) eqn:E; [discriminate|].
  intros y [= <-].
  destruct Hzero as [Hz | [Hz | Hz]].
  - apply Qeq_bool_iff in Hz. congruence.
  - exact Hz.
  - rewrite (annual_div_rate_zero _ Hz). unfold Qdiv.
    rewrite Qmult_0_l. apply Qmult_0_l.
Qed.

Lemma zero_yield_or_zero_price_is_na_witness :
  yf_Ticker env_zero_price = Return ticker_zero_price /\
  info ticker_zero_price = Return info_zero_price /\
  dividends ticker_zero_price = Return history4 /\
  latest_price info_zero_price = PyNum 0 /\
  field pd_est pytz_est env_zero_price "AAPL" "Annual Dividend Yield" = Some (PyStr "N/A").
Proof.
  repeat (split; [reflexivity|]).
  apply (zero_yield_or_zero_price_is_na pd_est pytz_est env_zero_price "AAPL"
           ticker_zero_price info_zero_price (aware 2024 1 15, 1%Q)
           (tl history4) 0%Q); try reflexivity.
  left. reflexivity.
Defined.

(** ** Date text *)

Lemma digit_val_char (d : Z) : 0 <= d <= 9 -> digit_val (digit_char d) = Some d.
Proof.
  intros H.
  assert (E : d = 0 \/ d = 1 \/ d = 2 \/ d = 3 \/ d = 4 \/ d = 5 \/ d = 6 \/ d = 7 \/
              d = 8 \/ d = 9) by lia.
  repeat (destruct E as [-> | E]; [reflexivity|]). subst. reflexivity.
Qed.

Lemma num2_digits (a b : Z) :
  0 <= a <= 9 -> 0 <= b <= 9 -> num2 (digit_char a) (digit_char b) = Some (10 * a + b).
Proof.
  intros Ha Hb. unfold num2. rewrite (digit_val_char a Ha), (digit_val_char b Hb).
  reflexivity.
Qed.

Lemma days_in_month_bounds (y m : Z) : 28 <= days_in_month y m <= 31.
Proof.
  unfold days_in_month. destruct (m =? 2); [destruct (is_leap y); lia|].
  destruct (_ || _); lia.
Qed.

(** Parsing the text of a date gives the date back, as a naive midnight. *)
Lemma strptime_strftime (w : WallTime) :
  valid_wall w -> strptime_ymd (strftime_ymd w) = Some (date_of w).
Proof.
  intros (Hy & Hm & Hd & _).
  pose proof (days_in_month_bounds (wt_year w) (wt_month w)) as Hdim.
  destruct w as [y m d tod]. cbn [wt_year wt_month wt_day] in *.
  unfold strftime_ymd, strptime_ymd, pad4, pad2, date_of.
  cbn [wt_year wt_month wt_day].
  cbv beta iota zeta delta [String.append].
  rewrite !num2_digits by (Z.div_mod_to_equations; lia).
  cbn [mbind option_bind].
  replace (100 * (10 * (y / 1000) + y / 100 mod 10) +
           (10 * (y mod 100 / 10) + y mod 100 mod 10))
    with y by (Z.div_mod_to_equations; lia).
  replace (10 * (m / 10) + m mod 10) with m by (Z.div_mod_to_equations; lia).
  replace (10 * (d / 10) + d mod 10) with d by (Z.div_mod_to_equations; lia).
  repeat (rewrite (proj2 (Z.leb_le _ _)) by lia). reflexivity.
Qed.

(** The text of a date is never the empty string. *)
Lemma strftime_truthy (w : WallTime) : truthy (PyStr (strftime_ymd w)) = true.
Proof.
  unfold strftime_ymd, pad4. cbv beta iota zeta delta [String.append]. reflexivity.
Qed.

(** ** The far-future filter *)

Section FilterFacts.

Variable pd_tz_localize : WallTime -> result Z.
Variable pytz_localize : WallTime -> Z.

Local Abbreviation field := (field pd_tz_localize pytz_localize).

(** The earnings check resets a timestamp that lies beyond the limit. *)
Lemma validate_earnings_far now t i :
  utc_instant pd_tz_localize t = Return i ->
  now + max_future_delta < i ->
  validate_earnings pd_tz_localize now (PyTimestamp t) = Return PyNone.
Proof.
  unfold utc_instant, validate_earnings. cbn [truthy].
  intros Hi Hfar.
  destruct (ts_utcoffset t) as [off|].
  - injection Hi as <-. cbn. rewrite (proj2 (Z.ltb_lt _ _) Hfar). reflexivity.
  - destruct (pd_tz_localize (ts_wall t)) as [off|e]; [|discriminate].
    injection Hi as <-. cbn. rewrite (proj2 (Z.ltb_lt _ _) Hfar). reflexivity.
Qed.

(** The ex-dividend check resets the text of a date whose midnight lies
    beyond the limit. *)
Lemma validate_ex_dividend_far now w :
  valid_wall w ->
  now + max_future_delta < instant (date_of w) (pytz_localize (date_of w)) ->
  validate_ex_dividend pytz_localize now (Some (strftime_ymd w)) = None.
Proof.
  intros Hw Hfar. unfold validate_ex_dividend.
  rewrite strftime_truthy, (strptime_strftime w Hw).
  rewrite (proj2 (Z.ltb_lt _ _) Hfar). reflexivity.
Qed.

(** What the dividend block leaves in [ex_dividend_date]. *)
Lemma dividend_facet_ex_date sym ticker d x xs :
  dividends ticker = Return (x :: xs) ->
  ex_dividend_date (fst (dividend_facet sym ticker d)) = None \/
  ex_dividend_date (fst (dividend_facet sym ticker d)) =
    Some (strftime_ymd (ts_wall (fst (List.last xs x)))).
Proof.
  intros Hdiv. unfold dividend_facet. rewrite Hdiv.
  destruct (truthy (latest_price d)); cbn; auto.
  destruct (yield_percent _ _); cbn; auto.
Qed.

End FilterFacts.

(** C5: a resolved earnings date that lies more than 180 days after "now"
    (a zone-aware timestamp at its own offset, a naive one read as New York
    time) is reset to unset and "Next Earnings Report Date" is "N/A"; a
    resolved ex-dividend date, a calendar date read as midnight in New York,
    that lies more than 180 days after "now" is reset to unset and
    "Ex-Dividend Date" is "N/A". *)
Theorem far_future_dates_suppressed
    (pd_tz_localize : WallTime -> result Z) (pytz_localize : WallTime -> Z)
    (env : Env) (ticker_symbol : string) (ticker : Ticker) :
  yf_Ticker env = Return ticker ->
  (forall t i,
     fst (resolve_earnings pd_tz_localize ticker_symbol ticker (now_resolve env))
       = PyTimestamp t ->
     utc_instant pd_tz_localize t = Return i ->
     now_validate env + max_future_delta < i ->
     validate_earnings pd_tz_localize (now_validate env) (PyTimestamp t) = Return PyNone /\
     field pd_tz_localize pytz_localize env ticker_symbol "Next Earnings Report Date"
       = Some (PyStr "N/A")) /\
  (forall x xs w,
     dividends ticker = Return (x :: xs) ->
     ts_wall (fst (List.last xs x)) = w ->
     valid_wall w ->
     now_validate env + max_future_delta
       < instant (date_of w) (pytz_localize (date_of w)) ->
     validate_ex_dividend pytz_localize (now_validate env) (Some (strftime_ymd w))
       = None /\
     field pd_tz_localize pytz_localize env ticker_symbol "Ex-Dividend Date"
       = Some (PyStr "N/A")).
Proof.
  intros Htk. split.
  - intros t i Hres Hi Hfar.
    pose proof (validate_earnings_far pd_tz_localize _ t i Hi Hfar) as Hval.
    split; [exact Hval|]. unfold field.
    destruct (get_stock_info_cases pd_tz_localize pytz_localize env ticker_symbol)
      as [-> | (ticker' & ned & Htk' & Hval' & ->)]; [reflexivity|].
    rewrite Htk in Htk'. injection Htk' as <-.
    rewrite Hres, Hval in Hval'. injection Hval' as <-. reflexivity.
  - intros x xs w Hdiv Hw Hvalid Hfar.
    pose proof (validate_ex_dividend_far pytz_localize _ w Hvalid Hfar) as Hval.
    split; [exact Hval|]. unfold field.
    destruct (get_stock_info_cases pd_tz_localize pytz_localize env ticker_symbol)
      as [-> | (ticker' & ned & Htk' & _ & ->)]; [reflexivity|].
    rewrite Htk in Htk'. injection Htk' as <-.
    unfold normal_record. cbn.
    destruct (dividend_facet_ex_date ticker_symbol ticker
                (snd (fst (profile_facet ticker_symbol ticker))) x xs Hdiv) as [-> | ->].
    + reflexivity.
    + rewrite Hw, Hval. reflexivity.
Qed.

Lemma far_future_dates_suppressed_witness :
  yf_Ticker env_far = Return ticker_far /\
  field pd_est pytz_est env_far "AAPL" "Next Earnings Report Date" = Some (PyStr "N/A") /\
  field pd_est pytz_est env_far "AAPL" "Ex-Dividend Date" = Some (PyStr "N/A").
Proof.
  destruct (far_future_dates_suppressed pd_est pytz_est env_far "AAPL" ticker_far eq_refl)
    as [Hearn Hex].
  split; [reflexivity|]. split.
  - apply (Hearn (aware 2026 1 1) (instant (midnight 2026 1 1) est_offset));
      [reflexivity | reflexivity | vm_compute; reflexivity].
  - apply (Hex (aware 2025 10 1, 1%Q) [(aware 2026 1 1, 1%Q)] (midnight 2026 1 1));
      [reflexivity | reflexivity | | vm_compute; reflexivity].
    unfold valid_wall. repeat split; vm_compute; congruence.
Defined.

(** ** Earnings-date resolution *)

Section EarningsFacts.

Variable pd_tz_localize : WallTime -> result Z.

(** Method 1 wins: a truthy first value of the "Earnings Date" row is the
    resolved date, whatever the time-indexed table holds. *)
Lemma resolve_earnings_calendar_first sym ticker now rows v vs :
  calendar ticker = Return (CalendarFrame rows) ->
  rows !! "Earnings Date" = Some (v :: vs) ->
  truthy v = true ->
  resolve_earnings pd_tz_localize sym ticker now = (v, []).
Proof.
  intros Hcal Hrow Hv. unfold resolve_earnings, calendar_method.
  rewrite Hcal, Hrow, Hv. reflexivity.
Qed.

(** When method 1 finds nothing and method 2 raises, the date stays unset
    and the error is only printed. *)
Lemma resolve_earnings_both_fail sym ticker now e :
  calendar_method ticker PyNone = PyNone ->
  earnings_dates ticker = Raise e ->
  fst (resolve_earnings pd_tz_localize sym ticker now) = PyNone.
Proof.
  intros Hcal Hed. unfold resolve_earnings, earnings_dates_method.
  rewrite Hcal, Hed. reflexivity.
Qed.

(** Method 2 on a zone-aware table takes the first row, in the order of
    the table, whose time is strictly after "now". *)
Lemma resolve_earnings_first_future sym ticker now ncols stamps :
  calendar_method ticker PyNone = PyNone ->
  earnings_dates ticker = Return (EarningsFrame (S ncols) (AwareIndex stamps)) ->
  fst (resolve_earnings pd_tz_localize sym ticker now) =
    match List.filter (after now) stamps with
    | s :: _ => PyTimestamp (mkTimestamp (fst s) (Some (snd s)))
    | [] => PyNone
    end.
Proof.
  intros Hcal Hed. unfold resolve_earnings, earnings_dates_method.
  rewrite Hcal, Hed. cbn.
  destruct stamps as [|s0 stamps']; [reflexivity|]. cbn [length Nat.eqb negb].
  cbn [result_bind future_dates].
  destruct (List.filter (after now) (s0 :: stamps')) as [|s rest]; reflexivity.
Qed.

End EarningsFacts.

(** C6, at the failing input: the calendar has no "Earnings Date" row and
    the earnings table lists two future dates, the later one (2025-03-02)
    before the earlier one (2025-01-31).  The code resolves to the first row,
    2025-03-02, and reports it; the earliest future date is 2025-01-31. *)
Theorem resolve_earnings_takes_first_row :
  fst (resolve_earnings pd_est "AAPL" ticker_latest_first now0)
    = PyTimestamp (aware 2025 3 2) /\
  spec_earliest_future now0 index_latest_first = Some (midnight 2025 1 31, est_offset) /\
  field pd_est pytz_est env_latest_first "AAPL" "Next Earnings Report Date"
    = Some (PyStr "2025-03-02").
Proof.
  repeat split; vm_compute; reflexivity.
Qed.

(** ** The batch driver *)

Section DriverFacts.

Local Open Scope list_scope.

Variable normalizer : string -> result record * list string.
Variable to_csv : string -> list record -> result unit.

Lemma writes_app (t1 t2 : list event) : writes (t1 ++ t2) = writes t1 ++ writes t2.
Proof. apply List.filter_app. Qed.

Lemma writes_prints (lines : list string) : writes (map Print lines) = [].
Proof. induction lines as [|l lines IH]; [reflexivity | exact IH]. Qed.

(** The loop appends the collected records in the order of the symbols
    and calls [to_csv] nowhere. *)
Lemma main_loop_spec (total idx : nat) (symbols : list string)
    (results : list record) (trace : list event) :
  fst (main_loop normalizer total idx symbols results trace)
    = results ++ collected normalizer symbols /\
  writes (snd (main_loop normalizer total idx symbols results trace)) = writes trace.
Proof.
  revert idx results trace.
  induction symbols as [|symbol rest IH]; intros idx results trace.
  - cbn. rewrite app_nil_r. auto.
  - cbn [main_loop]. unfold collected. cbn [omap list_omap].
    fold (collected normalizer rest).
    destruct (normalizer symbol) as [[info|e] printed]; cbn [fst returned].
    + destruct (IH (S idx) (results ++ [info])
                  (trace ++ map Print printed ++
                   [Print ("Processed " +:+ symbol +:+ " (" +:+ pretty idx +:+ "/"
                           +:+ pretty total +:+ ")")])) as [-> ->].
      rewrite <- app_assoc, !writes_app, writes_prints. cbn.
      rewrite app_nil_r. auto.
    + destruct (IH (S idx) results
                  (trace ++ map Print printed ++
                   [Print ("Failed to process " +:+ symbol +:+ ": " +:+ exn_str e)]))
        as [-> ->].
      rewrite !writes_app, writes_prints. cbn. rewrite app_nil_r. auto.
Qed.

End DriverFacts.

(** C9: in a run of the driver that collects no record, [to_csv] is never
    called and the last line printed is "No data was collected"; in a run
    that collects at least one record, [to_csv] is called exactly once, on
    "stock_data.csv", with the collected records in processing order. *)
Theorem main_no_data_or_ordered_write
    (normalizer : string -> result record * list string)
    (to_csv : string -> list record -> result unit) (symbols : list string) :
  let results := collected normalizer symbols in
  let trace := main_on normalizer to_csv symbols in
  (results = [] ->
   writes trace = [] /\ last trace = Some (Print "No data was collected")) /\
  (results <> [] ->
   writes trace = [ToCsv "stock_data.csv" results]).
Proof.
  intros results trace. subst results trace. unfold main_on.
  destruct (main_loop_spec normalizer (length symbols) 1 symbols [] []) as [Hres Hwr].
  destruct (main_loop normalizer (length symbols) 1 symbols [] []) as [results trace].
  cbn [fst snd app] in Hres, Hwr. subst results. cbn in Hwr.
  destruct (collected normalizer symbols) as [|r rs].
  - split; [|congruence]. intros _.
    rewrite writes_app, Hwr, last_snoc. auto.
  - split; [discriminate|]. intros _.
    destruct (to_csv "stock_data.csv" (r :: rs)); rewrite writes_app, Hwr; reflexivity.
Qed.

Lemma main_no_data_or_ordered_write_witness :
  (collected normalizer_raises stock_symbols = [] /\
   writes (main normalizer_raises to_csv_ok) = [] /\
   last (main normalizer_raises to_csv_ok) = Some (Print "No data was collected")) /\
  (collected normalizer_returns stock_symbols <> [] /\
   writes (main normalizer_returns to_csv_ok) =
     [ToCsv "stock_data.csv" (map failure_record stock_symbols)]).
Proof.
  split.
  - split; [reflexivity|].
    apply (main_no_data_or_ordered_write normalizer_raises to_csv_ok stock_symbols).
    reflexivity.
  - split; [discriminate|].
    apply (main_no_data_or_ordered_write normalizer_returns to_csv_ok stock_symbols).
    discriminate.
Defined.

(** * Further properties of the normalizer *)

Section RecordFacts.

Variable pd_tz_localize : WallTime -> result Z.
Variable pytz_localize : WallTime -> Z.

Local Abbreviation field := (field pd_tz_localize pytz_localize).

(** An obtained ticker whose earnings check returns makes the call return
    normally. *)
Lemma returns_normally_intro env sym ticker ned :
  yf_Ticker env = Return ticker ->
  validate_earnings pd_tz_localize (now_validate env)
    (fst (resolve_earnings pd_tz_localize sym ticker (now_resolve env))) = Return ned ->
  returns_normally pd_tz_localize pytz_localize env sym.
Proof.
  intros Htk Hval. unfold returns_normally, get_stock_info_try. rewrite Htk.
  destruct (profile_facet sym ticker) as [[cn d] out1].
  destruct (resolve_earnings pd_tz_localize sym ticker (now_resolve env)) as [ned0 out2].
  destruct (dividend_facet sym ticker d) as [dv out3]. cbn [fst snd] in *.
  rewrite Hval. eexists. reflexivity.
Qed.

(** The flag the dividend block leaves, by what [ticker.dividends] gave. *)
Lemma dividend_facet_offered_eq sym ticker d :
  dividend_offered (fst (dividend_facet sym ticker d)) =
    match dividends ticker with
    | Return (_ :: _) => "Yes"
    | _ => "No"
    end.
Proof.
  unfold dividend_facet.
  destruct (dividends ticker) as [[|x xs]|e]; try reflexivity.
  destruct (truthy (latest_price d)); cbn; [|reflexivity].
  destruct (yield_percent _ _); reflexivity.
Qed.

(** Without a non-empty series the block assigns neither date nor yield. *)
Lemma dividend_facet_not_offered sym ticker d :
  dividend_offered (fst (dividend_facet sym ticker d)) = "No" ->
  ex_dividend_date (fst (dividend_facet sym ticker d)) = None /\
  annual_dividend_yield (fst (dividend_facet sym ticker d)) = None.
Proof.
  rewrite dividend_facet_offered_eq. unfold dividend_facet.
  destruct (dividends ticker) as [[|x xs]|e]; [auto | discriminate | auto].
Qed.

End RecordFacts.

(** X1: on every path, the failure record included, "Stock Symbol" holds
    the symbol the call was given. *)
Theorem stock_symbol_is_input
    (pd_tz_localize : WallTime -> result Z) (pytz_localize : WallTime -> Z)
    (env : Env) (ticker_symbol : string) :
  field pd_tz_localize pytz_localize env ticker_symbol "Stock Symbol"
    = Some (PyStr ticker_symbol).
Proof.
  unfold field.
  destruct (get_stock_info_cases pd_tz_localize pytz_localize env ticker_symbol)
    as [-> | (ticker & ned & _ & _ & ->)]; reflexivity.
Qed.

(** X2: "Dividend Offered" is "N/A" exactly when an error reached the outer
    handler. *)
Theorem dividend_offered_na_iff_outer_failure
    (pd_tz_localize : WallTime -> result Z) (pytz_localize : WallTime -> Z)
    (env : Env) (ticker_symbol : string) :
  field pd_tz_localize pytz_localize env ticker_symbol "Dividend Offered"
    = Some (PyStr "N/A")
  <-> ~ returns_normally pd_tz_localize pytz_localize env ticker_symbol.
Proof.
  split.
  - intros Hna Hnormal.
    destruct (dividend_offered_normal _ _ _ _ Hnormal) as [H | H];
      rewrite H in Hna; discriminate.
  - intros Hescapes. unfold field.
    destruct (get_stock_info_cases pd_tz_localize pytz_localize env ticker_symbol)
      as [-> | (ticker & ned & Htk & Hval & _)]; [reflexivity|].
    exfalso. apply Hescapes. eauto using returns_normally_intro.
Qed.

(** X3: when no error reaches the outer handler, "Dividend Offered" is "Yes"
    exactly when [ticker.dividends] gave a non-empty series; a later failure
    inside the dividend block does not take the flag back. *)
Theorem dividend_offered_yes_iff_history
    (pd_tz_localize : WallTime -> result Z) (pytz_localize : WallTime -> Z)
    (env : Env) (ticker_symbol : string) (ticker : Ticker) :
  yf_Ticker env = Return ticker ->
  returns_normally pd_tz_localize pytz_localize env ticker_symbol ->
  (field pd_tz_localize pytz_localize env ticker_symbol "Dividend Offered"
     = Some (PyStr "Yes")
   <-> exists x xs, dividends ticker = Return (x :: xs)).
Proof.
  intros Htk Hnormal. unfold field.
  destruct (returns_normally_inv _ _ _ _ _ Htk Hnormal) as [ned ->].
  unfold normal_record. cbn. rewrite dividend_facet_offered_eq.
  destruct (dividends ticker) as [[|x xs]|e]; split;
    try discriminate; try (intros (x' & xs' & [=])); eauto.
Qed.

Lemma dividend_offered_yes_iff_history_witness :
  yf_Ticker env_text_price = Return ticker_text_price /\
  returns_normally pd_est pytz_est env_text_price "AAPL" /\
  field pd_est pytz_est env_text_price "AAPL" "Dividend Offered" = Some (PyStr "Yes").
Proof.
  assert (Hn : returns_normally pd_est pytz_est env_text_price "AAPL").
  { eexists. vm_compute. reflexivity. }
  split; [reflexivity|]. split; [exact Hn|].
  apply (dividend_offered_yes_iff_history pd_est pytz_est env_text_price "AAPL"
           ticker_text_price eq_refl Hn).
  eexists _, _. reflexivity.
Defined.

(** X4: on every path, a record that says "No" under "Dividend Offered"
    says "N/A" under "Ex-Dividend Date" and under "Annual Dividend Yield". *)
Theorem not_offered_implies_no_date_no_yield
    (pd_tz_localize : WallTime -> result Z) (pytz_localize : WallTime -> Z)
    (env : Env) (ticker_symbol : string) :
  field pd_tz_localize pytz_localize env ticker_symbol "Dividend Offered"
    = Some (PyStr "No") ->
  field pd_tz_localize pytz_localize env ticker_symbol "Ex-Dividend Date"
    = Some (PyStr "N/A") /\
  field pd_tz_localize pytz_localize env ticker_symbol "Annual Dividend Yield"
    = Some (PyStr "N/A").
Proof.
  unfold field.
  destruct (get_stock_info_cases pd_tz_localize pytz_localize env ticker_symbol)
    as [-> | (ticker & ned & _ & _ & ->)]; [auto|].
  unfold normal_record. cbn. intros [= Hno].
  destruct (dividend_facet_not_offered _ _ _ Hno) as [-> ->]. auto.
Qed.

Lemma not_offered_implies_no_date_no_yield_witness :
  field pd_est pytz_est env_all_raise "AAPL" "Dividend Offered" = Some (PyStr "No") /\
  field pd_est pytz_est env_all_raise "AAPL" "Ex-Dividend Date" = Some (PyStr "N/A") /\
  field pd_est pytz_est env_all_raise "AAPL" "Annual Dividend Yield" = Some (PyStr "N/A").
Proof.
  split; [reflexivity|].
  apply (not_offered_implies_no_date_no_yield pd_est pytz_est env_all_raise "AAPL").
  reflexivity.
Defined.

(** X5: when no error reaches the outer handler and the profile is fetched,
    "Company Name" is whatever the profile holds under "shortName", and
    "N/A" when the profile has no such key. *)
Theorem company_name_from_profile
    (pd_tz_localize : WallTime -> result Z) (pytz_localize : WallTime -> Z)
    (env : Env) (ticker_symbol : string) (ticker : Ticker) (d : gmap string pyval) :
  yf_Ticker env = Return ticker ->
  info ticker = Return d ->
  returns_normally pd_tz_localize pytz_localize env ticker_symbol ->
  field pd_tz_localize pytz_localize env ticker_symbol "Company Name" =
    Some (match d !! "shortName" with
          | Some v => v
          | None => PyStr "N/A"
          end).
Proof.
  intros Htk Hinfo Hnormal. unfold field.
  destruct (returns_normally_inv _ _ _ _ _ Htk Hnormal) as [ned ->].
  unfold normal_record. rewrite (profile_facet_info _ _ _ Hinfo). reflexivity.
Qed.

Lemma company_name_from_profile_witness :
  yf_Ticker env_full = Return ticker_full /\
  info ticker_full = Return info_full /\
  returns_normally pd_est pytz_est env_full "AAPL" /\
  field pd_est pytz_est env_full "AAPL" "Company Name" = Some (PyStr "Apple Inc.").
Proof.
  assert (Hn : returns_normally pd_est pytz_est env_full "AAPL").
  { eexists. vm_compute. reflexivity. }
  split; [reflexivity|]. split; [reflexivity|]. split; [exact Hn|].
  apply (company_name_from_profile pd_est pytz_est env_full "AAPL" ticker_full
           info_full eq_refl eq_refl Hn).
Defined.

Section PriceFacts.

Variable pd_tz_localize : WallTime -> result Z.
Variable pytz_localize : WallTime -> Z.

(** A falsy price leaves the yield unset, whatever the history. *)
Lemma dividend_facet_falsy_price sym ticker d :
  truthy (latest_price d) = false ->
  annual_dividend_yield (fst (dividend_facet sym ticker d)) = None.
Proof.
  intros Hp. unfold dividend_facet. rewrite Hp.
  destruct (dividends ticker) as [[|x xs]|e]; reflexivity.
Qed.

(** With a numeric or falsy price the block reaches line 85. *)
Lemma dividend_facet_ex_date_numeric sym ticker d x xs p :
  dividends ticker = Return (x :: xs) ->
  latest_price d = PyNum p ->
  ex_dividend_date (fst (dividend_facet sym ticker d)) =
    Some (strftime_ymd (ts_wall (fst (List.last xs x)))).
Proof.
  intros Hdiv Hp. unfold dividend_facet. rewrite Hdiv, Hp. cbn.
  destruct (Qeq_bool p 0); reflexivity.
Qed.

(** Dividing by a text raises inside the block, after the flag is set. *)
Lemma dividend_facet_text_price sym ticker d x xs s :
  dividends ticker = Return (x :: xs) ->
  latest_price d = PyStr s ->
  s <> "" ->
  dividend_facet sym ticker d =
    (mkDividendVars "Yes" None None,
     ["Error getting dividend info for " +:+ sym +:+ ": " +:+ exn_str division_type_error]).
Proof.
  intros Hdiv Hp Hs. unfold dividend_facet. rewrite Hdiv, Hp. cbn.
  rewrite (proj2 (String.eqb_neq s "") Hs). reflexivity.
Qed.

End PriceFacts.

(** X6: the fallback to "current price" is taken only when the "regular
    market price" key is absent.  When the key is present with a falsy value
    ([None], 0, an empty text), the yield is "N/A" whatever "current price"
    holds. *)
Theorem falsy_regular_price_blocks_fallback
    (pd_tz_localize : WallTime -> result Z) (pytz_localize : WallTime -> Z)
    (env : Env) (ticker_symbol : string) (ticker : Ticker)
    (d : gmap string pyval) (v : pyval) :
  yf_Ticker env = Return ticker ->
  info ticker = Return d ->
  d !! "regularMarketPrice" = Some v ->
  truthy v = false ->
  latest_price d = v /\
  field pd_tz_localize pytz_localize env ticker_symbol "Annual Dividend Yield"
    = Some (PyStr "N/A").
Proof.
  intros Htk Hinfo Hreg Hv.
  assert (Hp : latest_price d = v).
  { unfold latest_price, dict_get. rewrite Hreg. reflexivity. }
  split; [exact Hp|].
  apply (yield_field_na _ _ _ _ ticker Htk).
  rewrite (profile_facet_info _ _ _ Hinfo). cbn [fst snd].
  rewrite dividend_facet_falsy_price; [discriminate|]. rewrite Hp. exact Hv.
Qed.

Lemma falsy_regular_price_blocks_fallback_witness :
  yf_Ticker env_regular_none = Return ticker_regular_none /\
  info ticker_regular_none = Return info_regular_none /\
  info_regular_none !! "regularMarketPrice" = Some PyNone /\
  info_regular_none !! "currentPrice" = Some (PyNum 100) /\
  field pd_est pytz_est env_regular_none "AAPL" "Annual Dividend Yield"
    = Some (PyStr "N/A").
Proof.
  repeat (split; [reflexivity|]).
  apply (falsy_regular_price_blocks_fallback pd_est pytz_est env_regular_none "AAPL"
           ticker_regular_none info_regular_none PyNone); reflexivity.
Defined.

(** X7: a price that is a non-empty text makes the division of line 81
    raise inside the dividend block.  The flag set at line 75 stays, the
    ex-dividend date of line 85 is never assigned, and a line "Error getting
    dividend info for <symbol>: ..." is printed:
    when no error reaches the outer handler the record has "Yes", "N/A" and
    "N/A" in the three dividend fields although a history exists. *)
Theorem text_price_loses_ex_dividend_date
    (pd_tz_localize : WallTime -> result Z) (pytz_localize : WallTime -> Z)
    (env : Env) (ticker_symbol : string) (ticker : Ticker)
    (d : gmap string pyval) (x : Timestamp * Q) (xs : list (Timestamp * Q)) (s : string) :
  yf_Ticker env = Return ticker ->
  info ticker = Return d ->
  dividends ticker = Return (x :: xs) ->
  latest_price d = PyStr s ->
  s <> "" ->
  returns_normally pd_tz_localize pytz_localize env ticker_symbol ->
  let field := field pd_tz_localize pytz_localize env ticker_symbol in
  field "Dividend Offered" = Some (PyStr "Yes") /\
  field "Ex-Dividend Date" = Some (PyStr "N/A") /\
  field "Annual Dividend Yield" = Some (PyStr "N/A") /\
  exists e,
    In ("Error getting dividend info for " +:+ ticker_symbol +:+ ": " +:+ exn_str e)
       (snd (get_stock_info pd_tz_localize pytz_localize env ticker_symbol)).
Proof.
  intros Htk Hinfo Hdiv Hp Hs Hnormal field0. subst field0. unfold field.
  pose proof (dividend_facet_text_price ticker_symbol ticker d x xs s Hdiv Hp Hs) as Hfacet.
  destruct (returns_normally_inv _ _ _ _ _ Htk Hnormal) as [ned ->].
  unfold normal_record. rewrite (profile_facet_info _ _ _ Hinfo). cbn [fst snd].
  rewrite Hfacet. repeat (split; [reflexivity|]).
  exists division_type_error.
  unfold get_stock_info, get_stock_info_try. rewrite Htk.
  rewrite (profile_facet_info _ _ _ Hinfo), Hfacet.
  destruct (resolve_earnings _ _ _ _) as [ned0 out2].
  destruct (validate_earnings _ _ _) as [ned'|e]; cbn [snd];
    rewrite !in_app_iff; cbn; tauto.
Qed.

Lemma text_price_loses_ex_dividend_date_witness :
  yf_Ticker env_text_price = Return ticker_text_price /\
  info ticker_text_price = Return info_text_price /\
  dividends ticker_text_price = Return history2 /\
  latest_price info_text_price = PyStr "n/a" /\
  returns_normally pd_est pytz_est env_text_price "AAPL" /\
  field pd_est pytz_est env_text_price "AAPL" "Ex-Dividend Date" = Some (PyStr "N/A").
Proof.
  assert (Hn : returns_normally pd_est pytz_est env_text_price "AAPL").
  { eexists. vm_compute. reflexivity. }
  repeat (split; [reflexivity|]). split; [exact Hn|].
  destruct (text_price_loses_ex_dividend_date pd_est pytz_est env_text_price "AAPL"
              ticker_text_price info_text_price (aware 2024 7 15, (1 # 2)%Q)
              [(aware 2024 10 15, (1 # 2)%Q)] "n/a" eq_refl eq_refl eq_refl eq_refl)
    as (_ & Hex & _); [discriminate | exact Hn | exact Hex].
Defined.



(** * Further properties of the date handling *)

Section KeepFacts.

Variable pd_tz_localize : WallTime -> result Z.
Variable pytz_localize : WallTime -> Z.

(** The earnings check keeps a timestamp that is not beyond the limit. *)
Lemma validate_earnings_near now t i :
  utc_instant pd_tz_localize t = Return i ->
  i <= now + max_future_delta ->
  validate_earnings pd_tz_localize now (PyTimestamp t) = Return (PyTimestamp t).
Proof.
  unfold utc_instant, validate_earnings. cbn [truthy].
  intros Hi Hnear.
  destruct (ts_utcoffset t) as [off|].
  - injection Hi as <-. cbn. rewrite (proj2 (Z.ltb_ge _ _) Hnear). reflexivity.
  - destruct (pd_tz_localize (ts_wall t)) as [off|e]; [|discriminate].
    injection Hi as <-. cbn. rewrite (proj2 (Z.ltb_ge _ _) Hnear). reflexivity.
Qed.

(** The ex-dividend check keeps the text of a date whose midnight is not
    beyond the limit. *)
Lemma validate_ex_dividend_near now w :
  valid_wall w ->
  instant (date_of w) (pytz_localize (date_of w)) <= now + max_future_delta ->
  validate_ex_dividend pytz_localize now (Some (strftime_ymd w)) = Some (strftime_ymd w).
Proof.
  intros Hw Hnear. unfold validate_ex_dividend.
  rewrite strftime_truthy, (strptime_strftime w Hw).
  rewrite (proj2 (Z.ltb_ge _ _) Hnear). reflexivity.
Qed.

(** The earnings check passes every value that is not a timestamp. *)
Lemma validate_earnings_other now v :
  (forall t, v <> PyTimestamp t) ->
  validate_earnings pd_tz_localize now v = Return v.
Proof.
  intros Hv. unfold validate_earnings.
  destruct v as [|q|s|t]; try (destruct (truthy _); reflexivity).
  exfalso. apply (Hv t). reflexivity.
Qed.

End KeepFacts.

(** X9: the ex-dividend date is the calendar date of the last entry of the
    series.  With a numeric price (so that the block reaches line 85), a
    timestamp in the range of [pd.Timestamp], that date not beyond "now" +
    180 days when read as New York midnight, and no error reaching the outer
    handler, "Ex-Dividend Date" is its YYYY-MM-DD text. *)
Theorem ex_dividend_date_is_last_payment
    (pd_tz_localize : WallTime -> result Z) (pytz_localize : WallTime -> Z)
    (env : Env) (ticker_symbol : string) (ticker : Ticker)
    (d : gmap string pyval) (x : Timestamp * Q) (xs : list (Timestamp * Q))
    (p : Q) (w : WallTime) :
  yf_Ticker env = Return ticker ->
  info ticker = Return d ->
  dividends ticker = Return (x :: xs) ->
  latest_price d = PyNum p ->
  ts_wall (fst (List.last xs x)) = w ->
  valid_wall w ->
  instant (date_of w) (pytz_localize (date_of w)) <= now_validate env + max_future_delta ->
  returns_normally pd_tz_localize pytz_localize env ticker_symbol ->
  field pd_tz_localize pytz_localize env ticker_symbol "Ex-Dividend Date"
    = Some (PyStr (strftime_ymd w)).
Proof.
  intros Htk Hinfo Hdiv Hp Hw Hvalid Hnear Hnormal. unfold field.
  destruct (returns_normally_inv _ _ _ _ _ Htk Hnormal) as [ned ->].
  unfold normal_record. rewrite (profile_facet_info _ _ _ Hinfo). cbn [fst snd].
  rewrite (dividend_facet_ex_date_numeric _ _ _ x xs p Hdiv Hp), Hw.
  rewrite (validate_ex_dividend_near _ _ _ Hvalid Hnear).
  cbn -[truthy strftime_ymd]. rewrite strftime_truthy. reflexivity.
Qed.

Lemma ex_dividend_date_is_last_payment_witness :
  yf_Ticker env_full = Return ticker_full /\
  dividends ticker_full = Return history2 /\
  returns_normally pd_est pytz_est env_full "AAPL" /\
  field pd_est pytz_est env_full "AAPL" "Ex-Dividend Date" = Some (PyStr "2024-10-15").
Proof.
  assert (Hn : returns_normally pd_est pytz_est env_full "AAPL").
  { eexists. vm_compute. reflexivity. }
  split; [reflexivity|]. split; [reflexivity|]. split; [exact Hn|].
  apply (ex_dividend_date_is_last_payment pd_est pytz_est env_full "AAPL" ticker_full
           info_full (aware 2024 7 15, (1 # 2)%Q) [(aware 2024 10 15, (1 # 2)%Q)]
           100%Q (midnight 2024 10 15));
    try reflexivity; try exact Hn.
  - unfold valid_wall. repeat split; vm_compute; congruence.
  - vm_compute. congruence.
Defined.

(** X10: a resolved earnings timestamp that is not beyond "now" + 180 days
    passes the check unchanged, the call returns normally, and "Next
    Earnings Report Date" is the YYYY-MM-DD text of the timestamp's own
    wall-clock date. *)
Theorem near_earnings_date_is_reported
    (pd_tz_localize : WallTime -> result Z) (pytz_localize : WallTime -> Z)
    (env : Env) (ticker_symbol : string) (ticker : Ticker) (t : Timestamp) (i : Z) :
  yf_Ticker env = Return ticker ->
  fst (resolve_earnings pd_tz_localize ticker_symbol ticker (now_resolve env))
    = PyTimestamp t ->
  utc_instant pd_tz_localize t = Return i ->
  i <= now_validate env + max_future_delta ->
  returns_normally pd_tz_localize pytz_localize env ticker_symbol /\
  field pd_tz_localize pytz_localize env ticker_symbol "Next Earnings Report Date"
    = Some (PyStr (strftime_ymd (ts_wall t))).
Proof.
  intros Htk Hres Hi Hnear.
  pose proof (validate_earnings_near pd_tz_localize _ t i Hi Hnear) as Hval.
  rewrite <- Hres in Hval at 1.
  split; [eauto using returns_normally_intro|].
  unfold field.
  rewrite (get_stock_info_normal _ _ _ _ _ _ Htk Hval). reflexivity.
Qed.

Lemma near_earnings_date_is_reported_witness :
  yf_Ticker env_latest_first = Return ticker_latest_first /\
  field pd_est pytz_est env_latest_first "AAPL" "Next Earnings Report Date"
    = Some (PyStr "2025-03-02").
Proof.
  split; [reflexivity|].
  apply (near_earnings_date_is_reported pd_est pytz_est env_latest_first "AAPL"
           ticker_latest_first (aware 2025 3 2) (instant (midnight 2025 3 2) est_offset));
    [reflexivity | vm_compute; reflexivity | reflexivity | vm_compute; congruence].
Defined.

(** X11: a truthy calendar value that is not a timestamp (a text, a number)
    is taken by method 1, so the time-indexed table is never consulted, and
    is then reported as "N/A". *)
Theorem non_timestamp_calendar_value_is_na
    (pd_tz_localize : WallTime -> result Z) (pytz_localize : WallTime -> Z)
    (env : Env) (ticker_symbol : string) (ticker : Ticker)
    (rows : gmap string (list pyval)) (v : pyval) (vs : list pyval) :
  yf_Ticker env = Return ticker ->
  calendar ticker = Return (CalendarFrame rows) ->
  rows !! "Earnings Date" = Some (v :: vs) ->
  truthy v = true ->
  (forall t, v <> PyTimestamp t) ->
  resolve_earnings pd_tz_localize ticker_symbol ticker (now_resolve env) = (v, []) /\
  field pd_tz_localize pytz_localize env ticker_symbol "Next Earnings Report Date"
    = Some (PyStr "N/A").
Proof.
  intros Htk Hcal Hrow Hv Hnot.
  pose proof (resolve_earnings_calendar_first pd_tz_localize ticker_symbol ticker
                (now_resolve env) rows v vs Hcal Hrow Hv) as Hres.
  split; [exact Hres|].
  assert (Hval : validate_earnings pd_tz_localize (now_validate env)
                   (fst (resolve_earnings pd_tz_localize ticker_symbol ticker
                           (now_resolve env))) = Return v).
  { rewrite Hres. apply validate_earnings_other, Hnot. }
  unfold field. rewrite (get_stock_info_normal _ _ _ _ _ _ Htk Hval).
  unfold normal_record. cbn.
  destruct v as [|q|s|t]; try reflexivity. exfalso. apply (Hnot t). reflexivity.
Qed.

Lemma non_timestamp_calendar_value_is_na_witness :
  yf_Ticker env_calendar_text = Return ticker_calendar_text /\
  calendar ticker_calendar_text = Return (CalendarFrame rows_text) /\
  rows_text !! "Earnings Date" = Some [PyStr "2025-01-31"] /\
  field pd_est pytz_est env_calendar_text "AAPL" "Next Earnings Report Date"
    = Some (PyStr "N/A").
Proof.
  repeat (split; [reflexivity|]).
  apply (non_timestamp_calendar_value_is_na pd_est pytz_est env_calendar_text "AAPL"
           ticker_calendar_text rows_text (PyStr "2025-01-31") []);
    try reflexivity. intros t. discriminate.
Defined.

(** * Further properties of the earnings table *)

Section TableFacts.

Variable pd_tz_localize : WallTime -> result Z.

(** A localized index pairs each reading with the offset the localizer
    gave it. *)
Lemma localize_index_offsets stamps localized :
  localize_index pd_tz_localize stamps = Return localized ->
  List.Forall (fun s => pd_tz_localize (fst s) = Return (snd s)) localized.
Proof.
  revert localized. induction stamps as [|w rest IH]; intros localized H; cbn in H.
  - injection H as <-. constructor.
  - destruct (pd_tz_localize w) as [off|e] eqn:Hw; [|discriminate]. cbn in H.
    destruct (localize_index pd_tz_localize rest) as [rest'|e]; [|discriminate].
    cbn in H. injection H as <-. constructor; [exact Hw | apply IH; reflexivity].
Qed.

(** One reading the localizer rejects makes the whole index fail. *)
Lemma localize_index_raises stamps w e :
  In w stamps ->
  pd_tz_localize w = Raise e ->
  exists e', localize_index pd_tz_localize stamps = Raise e'.
Proof.
  intros Hin Hw. induction stamps as [|w0 rest IH]; [contradiction|].
  cbn. destruct (pd_tz_localize w0) as [off|e0] eqn:Hw0; [|eauto]. cbn.
  destruct Hin as [-> | Hin]; [congruence|].
  destruct (IH Hin) as [e' ->]. eauto.
Qed.

(** Every row that survives the filter lies strictly after "now". *)
Lemma future_dates_all_future now index future :
  future_dates pd_tz_localize now index = Return future ->
  List.Forall (fun t => exists i, utc_instant pd_tz_localize t = Return i /\ now < i) future.
Proof.
  intros H. apply List.Forall_forall. intros t Ht.
  destruct index as [stamps|stamps]; cbn in H.
  - destruct (localize_index pd_tz_localize stamps) as [localized|e] eqn:Hloc;
      [|discriminate].
    cbn in H. injection H as <-.
    apply List.in_map_iff in Ht. destruct Ht as (s & <- & Hs).
    apply List.filter_In in Hs. destruct Hs as [Hs Hafter].
    pose proof (localize_index_offsets _ _ Hloc) as Hoff.
    rewrite List.Forall_forall in Hoff. specialize (Hoff s Hs).
    exists (instant (fst s) (snd s)). unfold utc_instant. cbn. rewrite Hoff. cbn.
    split; [reflexivity|]. apply Z.ltb_lt, Hafter.
  - injection H as <-.
    apply List.in_map_iff in Ht. destruct Ht as (s & <- & Hs).
    apply List.filter_In in Hs. destruct Hs as [_ Hafter].
    exists (instant (fst s) (snd s)). split; [reflexivity|]. apply Z.ltb_lt, Hafter.
Qed.

Lemma Forall_filter_keep {A} (P : A -> Prop) (f : A -> bool) (l : list A) :
  List.Forall P l -> List.Forall P (List.filter f l).
Proof.
  induction 1 as [|a l Ha _ IH]; cbn; [constructor|].
  destruct (f a); [constructor|]; assumption.
Qed.

Lemma StronglySorted_filter_keep {A} (R : A -> A -> Prop) (f : A -> bool) (l : list A) :
  StronglySorted R l -> StronglySorted R (List.filter f l).
Proof.
  induction 1 as [|a l _ IH Ha]; cbn; [constructor|].
  destruct (f a); [constructor; [exact IH | apply Forall_filter_keep, Ha]|exact IH].
Qed.

(** In a strictly ascending index the earliest future row is the first
    future row. *)
Lemma spec_earliest_future_sorted now stamps :
  StronglySorted (fun a b => row_instant a < row_instant b) stamps ->
  spec_earliest_future now stamps = List.hd_error (List.filter (after now) stamps).
Proof.
  intros Hsorted. unfold spec_earliest_future.
  change (fun s : WallTime * Z => now <? instant (fst s) (snd s)) with (after now).
  apply (StronglySorted_filter_keep _ (after now)) in Hsorted.
  induction Hsorted as [|a l _ IH Ha]; [reflexivity|].
  cbn [fold_right List.hd_error]. rewrite IH.
  destruct l as [|b l']; [reflexivity|]. cbn [List.hd_error].
  apply List.Forall_inv in Ha. unfold row_instant in Ha.
  rewrite (proj2 (Z.ltb_lt _ _) Ha). reflexivity.
Qed.

End TableFacts.

(** X12: the time-indexed table never yields a date that is not strictly
    after "now".  When the calendar gave nothing truthy and the resolved
    value is a timestamp, that timestamp (a naive one read in New York
    time) lies strictly after the clock reading of line 52. *)
Theorem table_date_is_strictly_future
    (pd_tz_localize : WallTime -> result Z)
    (ticker_symbol : string) (ticker : Ticker) (now : Z) (t : Timestamp) :
  truthy (calendar_method ticker PyNone) = false ->
  fst (resolve_earnings pd_tz_localize ticker_symbol ticker now) = PyTimestamp t ->
  exists i, utc_instant pd_tz_localize t = Return i /\ now < i.
Proof.
  intros Hcal Hres. unfold resolve_earnings in Hres. rewrite Hcal in Hres.
  cbn [negb] in Hres.
  destruct (earnings_dates_method pd_tz_localize ticker now (calendar_method ticker PyNone))
    as [v|e] eqn:Hm; cbn [fst] in Hres;
    [subst v | rewrite Hres in Hcal; discriminate].
  unfold earnings_dates_method in Hm.
  destruct (earnings_dates ticker) as [[ncols index|]|e]; cbn in Hm;
    [ | injection Hm as Hm; rewrite Hm in Hcal; discriminate | discriminate].
  destruct (frame_empty ncols (index_length index)); cbn in Hm;
    [injection Hm as Hm; rewrite Hm in Hcal; discriminate|].
  destruct (future_dates pd_tz_localize now index) as [future|e] eqn:Hf; [|discriminate].
  cbn in Hm. apply future_dates_all_future in Hf.
  destruct (frame_empty ncols (length future)), future as [|t0 rest];
    injection Hm as Hm; try (rewrite Hm in Hcal; discriminate).
  subst t0. apply List.Forall_inv in Hf. exact Hf.
Qed.

Lemma table_date_is_strictly_future_witness :
  truthy (calendar_method ticker_full PyNone) = false /\
  fst (resolve_earnings pd_est "AAPL" ticker_full now0)
    = PyTimestamp (mkTimestamp (midnight 2025 1 31) None) /\
  exists i, utc_instant pd_est (mkTimestamp (midnight 2025 1 31) None) = Return i /\
            now0 < i.
Proof.
  split; [reflexivity|]. split; [reflexivity|].
  apply (table_date_is_strictly_future pd_est "AAPL" ticker_full now0); reflexivity.
Defined.

(** X13: on a zone-aware table whose rows are in strictly ascending order of
    time, with at least one column, the first future row that line 65 takes
    is the earliest future date. *)
Theorem ascending_table_gives_earliest
    (pd_tz_localize : WallTime -> result Z)
    (ticker_symbol : string) (ticker : Ticker) (now : Z)
    (ncols : nat) (stamps : list (WallTime * Z)) :
  calendar_method ticker PyNone = PyNone ->
  earnings_dates ticker = Return (EarningsFrame (S ncols) (AwareIndex stamps)) ->
  StronglySorted (fun a b => row_instant a < row_instant b) stamps ->
  fst (resolve_earnings pd_tz_localize ticker_symbol ticker now) =
    match spec_earliest_future now stamps with
    | Some s => PyTimestamp (mkTimestamp (fst s) (Some (snd s)))
    | None => PyNone
    end.
Proof.
  intros Hcal Hed Hsorted.
  rewrite (resolve_earnings_first_future _ _ _ _ ncols stamps Hcal Hed).
  rewrite (spec_earliest_future_sorted now stamps Hsorted).
  destruct (List.filter (after now) stamps); reflexivity.
Qed.

Lemma ascending_table_gives_earliest_witness :
  calendar_method ticker_earliest_first PyNone = PyNone /\
  StronglySorted (fun a b => row_instant a < row_instant b) index_earliest_first /\
  fst (resolve_earnings pd_est "AAPL" ticker_earliest_first now0)
    = PyTimestamp (aware 2025 1 31).
Proof.
  assert (Hs : StronglySorted (fun a b => row_instant a < row_instant b)
                 index_earliest_first).
  { repeat constructor; vm_compute; reflexivity. }
  split; [reflexivity|]. split; [exact Hs|].
  rewrite (ascending_table_gives_earliest pd_est "AAPL" ticker_earliest_first now0 3
             index_earliest_first eq_refl eq_refl Hs).
  reflexivity.
Defined.

(** X14: on a naive table a single row that cannot be localized discards
    the whole table, future rows included: the date stays unset, one error
    line is printed and nothing propagates. *)
Theorem unlocalizable_row_discards_table
    (pd_tz_localize : WallTime -> result Z)
    (ticker_symbol : string) (ticker : Ticker) (now : Z)
    (ncols : nat) (stamps : list WallTime) (w : WallTime) (e : exn) :
  calendar_method ticker PyNone = PyNone ->
  earnings_dates ticker = Return (EarningsFrame (S ncols) (NaiveIndex stamps)) ->
  In w stamps ->
  pd_tz_localize w = Raise e ->
  exists e',
    resolve_earnings pd_tz_localize ticker_symbol ticker now =
      (PyNone, ["Error getting earnings date for " +:+ ticker_symbol +:+ ": "
                +:+ exn_str e']).
Proof.
  intros Hcal Hed Hin Hw.
  destruct (localize_index_raises pd_tz_localize stamps w e Hin Hw) as [e' He'].
  exists e'. unfold resolve_earnings, earnings_dates_method.
  rewrite Hcal, Hed. cbn.
  destruct stamps as [|w0 rest]; [contradiction|].
  cbn [length Nat.eqb negb]. cbn [result_bind future_dates].
  rewrite He'. reflexivity.
Qed.

Lemma unlocalizable_row_discards_table_witness :
  calendar_method ticker_full PyNone = PyNone /\
  exists e',
    resolve_earnings pd_rejects "AAPL" ticker_full now0 =
      (PyNone, ["Error getting earnings date for AAPL: " +:+ exn_str e']).
Proof.
  split; [reflexivity|].
  apply (unlocalizable_row_discards_table pd_rejects "AAPL" ticker_full now0 3
           [midnight 2025 1 31; midnight 2024 10 31] (midnight 2024 10 31)
           (Exception "NonExistentTimeError")); try reflexivity.
  right. left. reflexivity.
Defined.

(** * Further properties of the dividend rate *)

(** X15: once a history has four entries, entries after them never change
    the rate: line 78 reads the first four only. *)
Theorem annual_div_rate_ignores_later_payments
    (history more : list (Timestamp * Q)) :
  (4 <= length history)%nat ->
  annual_div_rate (history ++ more) = annual_div_rate history.
Proof.
  intros Hlen. unfold annual_div_rate.
  rewrite (proj2 (Nat.leb_le 4 (length history)) Hlen).
  rewrite (proj2 (Nat.leb_le 4 (length (history ++ more))))
    by (rewrite length_app; lia).
  rewrite map_app, firstn_app, length_map.
  replace (4 - length history)%nat with 0%nat by lia.
  cbn [firstn]. rewrite app_nil_r. reflexivity.
Qed.

Lemma annual_div_rate_ignores_later_payments_witness :
  (4 <= length history4)%nat /\
  annual_div_rate history5 = annual_div_rate history4.
Proof.
  split; [cbn; lia|].
  apply (annual_div_rate_ignores_later_payments history4 [(aware 2025 1 15, 5%Q)]).
  cbn. lia.
Defined.



(** * Further properties of the batch driver *)

Section DriverMoreFacts.

Local Open Scope list_scope.

Variable normalizer : string -> result record * list string.
Variable to_csv : string -> list record -> result unit.

(** What a run hands to [to_csv], by what the loop collected. *)
Lemma main_on_writes (symbols : list string) :
  writes (main_on normalizer to_csv symbols) =
    match collected normalizer symbols with
    | [] => []
    | r :: rs => [ToCsv "stock_data.csv" (r :: rs)]
    end.
Proof.
  unfold main_on.
  destruct (main_loop_spec normalizer (length symbols) 1 symbols [] []) as [Hres Hwr].
  destruct (main_loop normalizer (length symbols) 1 symbols [] []) as [results trace].
  cbn [fst snd app] in Hres, Hwr. subst results. cbn in Hwr.
  destruct (collected normalizer symbols) as [|r rs].
  - rewrite writes_app, Hwr. reflexivity.
  - destruct (to_csv "stock_data.csv" (r :: rs)); rewrite writes_app, Hwr; reflexivity.
Qed.

(** The loop only ever appends to the trace. *)
Lemma main_loop_trace_grows (total idx : nat) (symbols : list string)
    (results : list record) (trace : list event) :
  exists added,
    snd (main_loop normalizer total idx symbols results trace) = trace ++ added.
Proof.
  revert idx results trace.
  induction symbols as [|symbol rest IH]; intros idx results trace.
  - exists []. cbn. rewrite app_nil_r. reflexivity.
  - cbn [main_loop].
    destruct (normalizer symbol) as [[info|e] printed];
      match goal with
      | |- context [main_loop _ _ _ _ ?res (trace ++ ?more)] =>
          destruct (IH (S idx) res (trace ++ more)) as [added ->];
          exists (more ++ added); rewrite <- !app_assoc; reflexivity
      end.
Qed.

(** The line the loop prints for the symbol at offset [i] from position
    [idx]. *)
Lemma main_loop_progress (total idx i : nat) (symbols : list string)
    (results : list record) (trace : list event) (symbol : string) :
  symbols !! i = Some symbol ->
  In (Print (match fst (normalizer symbol) with
             | Return _ =>
                 "Processed " +:+ symbol +:+ " (" +:+ pretty (idx + i)%nat +:+ "/"
                 +:+ pretty total +:+ ")"
             | Raise e => "Failed to process " +:+ symbol +:+ ": " +:+ exn_str e
             end))
     (snd (main_loop normalizer total idx symbols results trace)).
Proof.
  revert idx i results trace.
  induction symbols as [|s rest IH]; intros idx i results trace Hi; [discriminate|].
  destruct i as [|i].
  - cbn in Hi. injection Hi as ->. cbn [main_loop]. rewrite Nat.add_0_r.
    destruct (normalizer symbol) as [[info|e] printed]; cbn [fst];
      match goal with
      | |- context [main_loop _ _ _ _ ?res (trace ++ ?more)] =>
          destruct (main_loop_trace_grows total (S idx) rest res (trace ++ more))
            as [added ->]
      end;
      rewrite !in_app_iff; cbn; tauto.
  - cbn in Hi. cbn [main_loop]. rewrite Nat.add_succ_r.
    destruct (normalizer s) as [[info|e] printed]; apply (IH (S idx) i); exact Hi.
Qed.

End DriverMoreFacts.

(** The call always returns a record that carries its symbol and the six
    keys. *)
Lemma get_stock_info_returns_record
    (pd_tz_localize : WallTime -> result Z) (pytz_localize : WallTime -> Z)
    (env : Env) (ticker_symbol : string) :
  exists r,
    fst (get_stock_info pd_tz_localize pytz_localize env ticker_symbol) = Return r /\
    record_get r "Stock Symbol" = Some (PyStr ticker_symbol) /\
    record_keys r = required_keys.
Proof.
  destruct (get_stock_info_cases pd_tz_localize pytz_localize env ticker_symbol)
    as [-> | (ticker & ned & _ & _ & ->)]; eexists; repeat split; reflexivity.
Qed.

(** X17: the driver run with [get_stock_info] itself never takes the "No
    data was collected" branch on a non-empty symbol list: since the call
    never raises, [to_csv] is called exactly once, with one row per symbol,
    in the order of the list, each row carrying its symbol and the six
    columns. *)
Theorem main_writes_one_row_per_symbol
    (pd_tz_localize : WallTime -> result Z) (pytz_localize : WallTime -> Z)
    (envs : string -> Env) (to_csv : string -> list record -> result unit)
    (symbols : list string) :
  symbols <> [] ->
  exists rows,
    writes (main_with_get_stock_info pd_tz_localize pytz_localize envs to_csv symbols)
      = [ToCsv "stock_data.csv" rows] /\
    Forall2 (fun symbol r =>
               record_get r "Stock Symbol" = Some (PyStr symbol) /\
               record_keys r = required_keys)
            symbols rows.
Proof.
  intros Hne. unfold main_with_get_stock_info. rewrite main_on_writes.
  set (normalizer := fun symbol =>
         get_stock_info pd_tz_localize pytz_localize (envs symbol) symbol).
  assert (Hall : Forall2 (fun symbol r =>
                            record_get r "Stock Symbol" = Some (PyStr symbol) /\
                            record_keys r = required_keys)
                         symbols (collected normalizer symbols)).
  { clear Hne. induction symbols as [|s rest IH]; [constructor|].
    unfold collected. cbn [omap list_omap]. fold (collected normalizer rest).
    destruct (get_stock_info_returns_record pd_tz_localize pytz_localize (envs s) s)
      as (r & Hr & Hsym & Hkeys).
    subst normalizer. cbn beta. rewrite Hr. cbn [returned]. constructor; auto. }
  destruct (collected normalizer symbols) as [|r rs].
  - inversion Hall. congruence.
  - exists (r :: rs). split; [reflexivity | exact Hall].
Qed.

Lemma main_writes_one_row_per_symbol_witness :
  stock_symbols <> [] /\
  exists rows,
    writes (main_with_get_stock_info pd_est pytz_est (fun _ => env_full) to_csv_ok
              stock_symbols) = [ToCsv "stock_data.csv" rows] /\
    Forall2 (fun symbol r =>
               record_get r "Stock Symbol" = Some (PyStr symbol) /\
               record_keys r = required_keys)
            stock_symbols rows.
Proof.
  split; [discriminate|].
  apply (main_writes_one_row_per_symbol pd_est pytz_est (fun _ => env_full) to_csv_ok
           stock_symbols).
  discriminate.
Defined.

(** X18: when at least one record was collected, the last line of the run
    tells how the write went: "Data saved to stock_data.csv" if [to_csv]
    returned, "Error saving to CSV: ..." with the error's text if it raised;
    the error is not propagated. *)
Theorem write_outcome_is_last_line
    (normalizer : string -> result record * list string)
    (to_csv : string -> list record -> result unit) (symbols : list string) :
  collected normalizer symbols <> [] ->
  last (main_on normalizer to_csv symbols) =
    Some (Print (match to_csv "stock_data.csv" (collected normalizer symbols) with
                 | Return _ => "Data saved to stock_data.csv"
                 | Raise e => "Error saving to CSV: " +:+ exn_str e
                 end)).
Proof.
  intros Hne. unfold main_on.
  destruct (main_loop_spec normalizer (length symbols) 1 symbols [] []) as [Hres _].
  destruct (main_loop normalizer (length symbols) 1 symbols [] []) as [results trace].
  cbn [fst app] in Hres. subst results.
  destruct (collected normalizer symbols) as [|r rs]; [congruence|].
  destruct (to_csv "stock_data.csv" (r :: rs));
    match goal with
    | |- last (trace ++ [?a; ?b])%list = _ =>
        change [a; b] with ([a] ++ [b])%list; rewrite app_assoc, last_snoc; reflexivity
    end.
Qed.

Lemma write_outcome_is_last_line_witness :
  collected normalizer_returns stock_symbols <> [] /\
  last (main normalizer_returns to_csv_fails)
    = Some (Print "Error saving to CSV: Permission denied").
Proof.
  split; [discriminate|].
  apply (write_outcome_is_last_line normalizer_returns to_csv_fails stock_symbols).
  discriminate.
Defined.

(** X19: every symbol gets its own line, numbered by its position in the
    list: the symbol at position i + 1 of n prints "Processed <symbol>
    (i+1/n)" when its call returns and "Failed to process <symbol>: ..."
    when it raises; symbols whose call raised still count in the
    numbering. *)
Theorem every_symbol_is_reported
    (normalizer : string -> result record * list string)
    (to_csv : string -> list record -> result unit)
    (symbols : list string) (i : nat) (symbol : string) :
  symbols !! i = Some symbol ->
  In (Print (match fst (normalizer symbol) with
             | Return _ =>
                 "Processed " +:+ symbol +:+ " (" +:+ pretty (S i) +:+ "/"
                 +:+ pretty (length symbols) +:+ ")"
             | Raise e => "Failed to process " +:+ symbol +:+ ": " +:+ exn_str e
             end))
     (main_on normalizer to_csv symbols).
Proof.
  intros Hi. unfold main_on.
  pose proof (main_loop_progress normalizer to_csv (length symbols) 1 i symbols [] []
                symbol Hi) as Hin.
  destruct (main_loop normalizer (length symbols) 1 symbols [] []) as [results trace].
  cbn [snd] in Hin. cbn [Nat.add] in Hin.
  destruct results as [|r rs]; [|destruct (to_csv _ _)];
    apply in_or_app; left; exact Hin.
Qed.

Lemma every_symbol_is_reported_witness :
  stock_symbols !! 2%nat = Some "GOOGL" /\
  In (Print "Processed GOOGL (3/10)") (main normalizer_skips_msft to_csv_ok) /\
  In (Print "Failed to process MSFT: upstream unavailable")
     (main normalizer_skips_msft to_csv_ok).
Proof.
  split; [reflexivity|]. split.
  - apply (every_symbol_is_reported normalizer_skips_msft to_csv_ok stock_symbols
             2 "GOOGL"). reflexivity.
  - apply (every_symbol_is_reported normalizer_skips_msft to_csv_ok stock_symbols
             1 "MSFT"). reflexivity.
Defined.

(** X20: a symbol whose call raises is skipped and the batch goes on: what
    the run hands to [to_csv] is what it would hand over with that symbol
    taken out of the list. *)
Theorem raising_symbol_is_skipped
    (normalizer : string -> result record * list string)
    (to_csv : string -> list record -> result unit)
    (before after_ : list string) (symbol : string) (e : exn) :
  fst (normalizer symbol) = Raise e ->
  writes (main_on normalizer to_csv (before ++ symbol :: after_)%list)
    = writes (main_on normalizer to_csv (before ++ after_)%list).
Proof.
  intros Hraise. rewrite !main_on_writes. unfold collected.
  rewrite !omap_app. cbn [omap list_omap]. rewrite Hraise. reflexivity.
Qed.

Lemma raising_symbol_is_skipped_witness :
  fst (normalizer_skips_msft "MSFT") = Raise boom /\
  writes (main normalizer_skips_msft to_csv_ok)
    = [ToCsv "stock_data.csv"
         (map failure_record
            ["AAPL"; "GOOGL"; "AMZN"; "TSLA"; "META"; "V"; "JPM"; "DIS"; "NFLX"])].
Proof.
  split; [reflexivity|].
  change (main normalizer_skips_msft to_csv_ok)
    with (main_on normalizer_skips_msft to_csv_ok
            (["AAPL"] ++ "MSFT" ::
             ["GOOGL"; "AMZN"; "TSLA"; "META"; "V"; "JPM"; "DIS"; "NFLX"])%list).
  rewrite (raising_symbol_is_skipped normalizer_skips_msft to_csv_ok ["AAPL"]
             ["GOOGL"; "AMZN"; "TSLA"; "META"; "V"; "JPM"; "DIS"; "NFLX"] "MSFT" boom
             eq_refl).
  reflexivity.
Defined.
